(** * The appointment intake handler of service_appointment_api

    A shallow embedding of [src/handlers/create.js] (the Lambda handler that
    validates a request, checks the [locationTimeIndex] for a booking of the
    same slot and writes the appointment with a conditional put), and the
    properties of its specification proved or refuted on that embedding.

    The handler is one [async] function with early [return]s, three
    [try]/[catch] blocks, two store round trips, one id generation and clock
    reads.  Its statements are embedded as JavaScript completions (normal,
    return, throw): the ones that touch neither the store nor the clock in
    the monad [completion], the others in the state monad [M] over it, whose
    state is the table of the store, the log of the store calls and the
    number of clock reads.  Logging ([console.log], [console.error]) has no
    effect on the result and is left out; the one log written before the
    outer [try] serialises the event, which does not throw for a JSON
    value.

    The store is the table of [serverless.yml]: its items, the string keys
    of the table and of its two indexes, and the condition of the put.  What
    else makes the service reject a call is a fault the oracle of the
    invocation decides.

    One invocation runs from its first statement to its response without
    interleaving: two concurrent invocations, and the delay with which a
    global secondary index follows its table, are outside this model. *)

From Stdlib Require Import String Ascii List ZArith Bool Floats.
Import ListNotations.
Open Scope string_scope.

#[local] Set Warnings "-register-all".

(** ** JavaScript values

    The event of a Lambda invocation is deserialised from JSON, and so is the
    body the handler parses: the values the handler sees are the JSON values,
    and [undefined] for what a property read finds missing.  Numbers are IEEE
    binary64 as in JavaScript; a string is the sequence of its bytes.  An
    object is the list of its own properties in insertion order (their names
    are distinct in JavaScript; of two properties of one name in a list, a
    read takes the first). *)

Inductive value : Type :=
| VUndefined
| VNull
| VBool (b : bool)
| VNum (x : float)
| VStr (s : string)
| VArr (elements : list value)
| VObj (properties : list (string * value)).

(** An error object: what [catch] binds.  [error_code] is [undefined] for an
    error that has no [code] (a [TypeError] of the engine, a plain [Error]). *)
Record js_error : Type := {
  error_message : string;
  error_code : value;
  error_stack : string
}.

(** What the engine and the deployment decide and the handler's source does
    not: [JSON.parse] ([None] when it throws a [SyntaxError]), [Date.parse]
    ([None] for [NaN]; the accepted formats beyond ISO 8601 are the
    engine's), the decimal rendering of a number, the text of a stack trace,
    and the environment variable [DYNAMODB_TABLE]. *)
Record engine : Type := {
  JSON_parse : string -> option value;
  Date_parse : string -> option Z;
  Number_toString : float -> string;
  stack_trace : string -> string;
  DYNAMODB_TABLE : option string
}.

(** [const TABLE_NAME = process.env.DYNAMODB_TABLE || 'service-appointment-api-dev'] *)
Definition TABLE_NAME (e : engine) : string :=
  match DYNAMODB_TABLE e with
  | Some name => if name =? "" then "service-appointment-api-dev" else name
  | None => "service-appointment-api-dev"
  end.

Definition TypeError (e : engine) (message : string) : js_error :=
  {| error_message := message;
     error_code := VUndefined;
     error_stack := stack_trace e message |}.

(** [ToBoolean]: what [if (v)] and [!v] test. *)
Definition ToBoolean (v : value) : bool :=
  match v with
  | VUndefined | VNull => false
  | VBool b => b
  | VNum x => negb (PrimFloat.is_zero x || PrimFloat.is_nan x)
  | VStr s => negb (s =? "")
  | VArr _ | VObj _ => true
  end.

(** The own property [key] of an object. *)
Fixpoint own (key : string) (properties : list (string * value)) : option value :=
  match properties with
  | [] => None
  | (k, v) :: rest => if k =? key then Some v else own key rest
  end.

Definition has_own (key : string) (properties : list (string * value)) : bool :=
  match own key properties with Some _ => true | None => false end.

(** [Array.prototype.join] with the separator [","], over the conversion
    [text] of an element to a string: [null] and [undefined] elements give
    the empty string, and the first conversion that throws ends the join. *)
Fixpoint Array_join (text : value -> option string) (elements : list value)
  : option string :=
  match elements with
  | [] => Some ""
  | v :: rest =>
      let first :=
        match v with
        | VUndefined | VNull => Some ""
        | _ => text v
        end in
      match first, rest with
      | None, _ => None
      | Some s, [] => Some s
      | Some s, _ :: _ =>
          match Array_join text rest with
          | Some r => Some (s ++ "," ++ r)
          | None => None
          end
      end
  end.

(** [ToString], as a template literal applies it; [None] when it throws a
    [TypeError].  An array is joined with commas.  A plain object gives
    ["[object Object]"] through [Object.prototype.toString], unless an own
    property [toString] shadows it: a JSON value is never callable, so
    [OrdinaryToPrimitive] finds no method that returns a primitive and
    throws. *)
Fixpoint ToString (e : engine) (v : value) : option string :=
  match v with
  | VUndefined => Some "undefined"
  | VNull => Some "null"
  | VBool true => Some "true"
  | VBool false => Some "false"
  | VNum x => Some (Number_toString e x)
  | VStr s => Some s
  | VArr elements => Array_join (ToString e) elements
  | VObj properties =>
      if has_own "toString" properties then None else Some "[object Object]"
  end.

(** [new Date(v)] followed by [isNaN(date.getTime())]: [Some true] when the
    date is valid, [Some false] when its time value is [NaN], [None] when the
    constructor throws (its [ToPrimitive] of an object argument).  A string
    goes to [Date.parse]; any other primitive goes through [ToNumber] and
    [TimeClip], which keeps the finite numbers of magnitude at most
    8.64e15. *)
Definition Date_valid (e : engine) (v : value) : option bool :=
  match v with
  | VStr s => Some (match Date_parse e s with Some _ => true | None => false end)
  | VNum x => Some (PrimFloat.leb (PrimFloat.abs x) 8.64e15%float)
  | VBool _ | VNull => Some true
  | VUndefined => Some false
  | VArr _ | VObj _ =>
      match ToString e v with
      | Some s => Some (match Date_parse e s with Some _ => true | None => false end)
      | None => None
      end
  end.

Definition Array_isArray (v : value) : bool :=
  match v with VArr _ => true | _ => false end.

(** ** [JSON.stringify] *)

Definition hex_digit (n : nat) : ascii :=
  match n with
  | 0 => "0" | 1 => "1" | 2 => "2" | 3 => "3" | 4 => "4" | 5 => "5" | 6 => "6"
  | 7 => "7" | 8 => "8" | 9 => "9" | 10 => "a" | 11 => "b" | 12 => "c"
  | 13 => "d" | 14 => "e" | _ => "f"
  end%char.

(** The string of one double quote (code 34). *)
Definition dquote : string := String (ascii_of_nat 34) "".

(** One character of [QuoteJSONString]: a backslash before a double quote or
    a backslash, the short escapes, [\u00XX] for the other control
    characters. *)
Definition quote_char (c : ascii) : string :=
  let n := nat_of_ascii c in
  if (n =? 34)%nat then "\" ++ dquote
  else if (n =? 92)%nat then "\\"
  else if (n =? 8)%nat then "\b"
  else if (n =? 12)%nat then "\f"
  else if (n =? 10)%nat then "\n"
  else if (n =? 13)%nat then "\r"
  else if (n =? 9)%nat then "\t"
  else if (n <? 32)%nat then
    "\u00" ++ String (hex_digit (n / 16)) (String (hex_digit (n mod 16)) "")
  else String c "".

Fixpoint quote_chars (s : string) : string :=
  match s with
  | EmptyString => ""
  | String c rest => quote_char c ++ quote_chars rest
  end.

Definition QuoteJSONString (s : string) : string :=
  dquote ++ quote_chars s ++ dquote.

(** [SerializeJSONProperty] with no replacer and no indentation: [None] is
    [undefined], which an object leaves out with its key and an array writes
    as [null].  A number that is not finite is written [null]. *)
Fixpoint SerializeJSONProperty (e : engine) (v : value) : option string :=
  match v with
  | VUndefined => None
  | VNull => Some "null"
  | VBool true => Some "true"
  | VBool false => Some "false"
  | VNum x =>
      if PrimFloat.is_nan x || PrimFloat.is_infinity x then Some "null"
      else Some (Number_toString e x)
  | VStr s => Some (QuoteJSONString s)
  | VArr elements =>
      let item v :=
        match SerializeJSONProperty e v with Some s => s | None => "null" end in
      Some ("[" ++
            (fix items (l : list value) : string :=
               match l with
               | [] => ""
               | v :: rest =>
                   match rest with
                   | [] => item v
                   | _ :: _ => item v ++ "," ++ items rest
                   end
               end) elements ++ "]")
  | VObj properties =>
      Some ("{" ++
            (fix members (l : list (string * value)) (first : bool) : string :=
               match l with
               | [] => ""
               | (k, v) :: rest =>
                   match SerializeJSONProperty e v with
                   | Some s =>
                       (if first then "" else ",") ++
                       QuoteJSONString k ++ ":" ++ s ++ members rest false
                   | None => members rest first
                   end
               end) properties true ++ "}")
  end.

(** [JSON.stringify(v)] for the object literals the handler passes to it
    (for [undefined] itself JavaScript gives [undefined], not a string). *)
Definition JSON_stringify (e : engine) (v : value) : string :=
  match SerializeJSONProperty e v with Some s => s | None => "undefined" end.

(** ** Responses and completions *)

Record response : Type := {
  statusCode : Z;
  headers : list (string * string);
  body : string
}.

(** The completion of a statement list: it runs to its end with a value,
    leaves the function with [return], or throws. *)
Inductive completion (A : Type) : Type :=
| Normal (a : A)
| Return (r : response)
| Throw (err : js_error).

Arguments Normal {A} a.
Arguments Return {A} r.
Arguments Throw {A} err.

Module Pure.

Definition bind {A B} (c : completion A) (k : A -> completion B) : completion B :=
  match c with
  | Normal a => k a
  | Return r => Return r
  | Throw err => Throw err
  end.

(** [try { c } catch (err) { handler err }] *)
Definition try_catch {A} (c : completion A) (handler : js_error -> completion A)
  : completion A :=
  match c with
  | Throw err => handler err
  | other => other
  end.

End Pure.

Declare Scope pure_scope.
Delimit Scope pure_scope with pure.
Notation "x <- c ;; k" := (Pure.bind c (fun x => k))
  (at level 61, c at next level, right associativity) : pure_scope.
Notation "c ;; k" := (Pure.bind c (fun _ => k))
  (at level 61, right associativity) : pure_scope.

(** A computation of the engine that may throw a [TypeError]. *)
Definition or_TypeError {A} (e : engine) (message : string) (r : option A)
  : completion A :=
  match r with
  | Some a => Normal a
  | None => Throw (TypeError e message)
  end.

(** The property read [v[key]] or [v.key], for a [key] that no prototype
    defines ([body], [Items] and the five fields of an appointment): the own
    property of an object, [undefined] when it has none or when [v] is a
    primitive or an array. *)
Definition field (v : value) (key : string) : value :=
  match v with
  | VObj properties =>
      match own key properties with Some x => x | None => VUndefined end
  | _ => VUndefined
  end.

(** The same read as a statement: reading a property of [null] or
    [undefined] throws. *)
Definition Get (e : engine) (v : value) (key : string) : completion value :=
  match v with
  | VUndefined =>
      Throw (TypeError e ("Cannot read properties of undefined (reading '" ++ key ++ "')"))
  | VNull =>
      Throw (TypeError e ("Cannot read properties of null (reading '" ++ key ++ "')"))
  | _ => Normal (field v key)
  end.

(** ** The store and the monad of the handler *)

(** One call of the DocumentClient, with the parameters it was given. *)
Inductive store_call : Type :=
| QueryCall (params : value)
| PutCall (params : value).

(** The state an invocation runs in: the items of the table, the calls made
    to the store so far, and how often the clock was read. *)
Record world : Type := {
  table : list value;
  calls : list store_call;
  ticks : nat
}.

(** What is decided outside the handler for one invocation: the id
    [uuid.v4()] returns, the text of the n-th [new Date().toISOString()],
    and the error with which the service rejects the query or the put for a
    reason of its own: it cannot be reached, it throttles the caller, a
    limit of the service is exceeded.  With [None] the service raises no
    such fault, and the call is decided by the table, its keys and the
    condition of the put. *)
Record oracle : Type := {
  uuid_v4 : string;
  toISOString : nat -> string;
  query_fault : option js_error;
  put_fault : option js_error
}.

Definition M (A : Type) : Type := world -> completion A * world.

Definition lift {A} (c : completion A) : M A := fun w => (c, w).

Definition ret {A} (a : A) : M A := lift (Normal a).

Definition return_ {A} (r : response) : M A := lift (Return r).

Definition bind {A B} (m : M A) (k : A -> M B) : M B :=
  fun w =>
    match m w with
    | (Normal a, w') => k a w'
    | (Return r, w') => (Return r, w')
    | (Throw err, w') => (Throw err, w')
    end.

(** [try { m } catch (err) { handler err }]: a [return] inside [m] leaves the
    function, a throw inside [handler] goes to the enclosing [try]. *)
Definition try_catch {A} (m : M A) (handler : js_error -> M A) : M A :=
  fun w =>
    match m w with
    | (Throw err, w') => handler err w'
    | other => other
    end.

Declare Scope js_scope.
Delimit Scope js_scope with js.
Notation "x <- m ;; k" := (bind m (fun x => k))
  (at level 61, m at next level, right associativity) : js_scope.
Notation "m ;; k" := (bind m (fun _ => k))
  (at level 61, right associativity) : js_scope.

Definition tick (w : world) : world :=
  {| table := table w; calls := calls w; ticks := S (ticks w) |}.

(** [new Date().toISOString()] *)
Definition now (o : oracle) : M string :=
  fun w => (Normal (toISOString o (ticks w)), tick w).

(** *** The appointment store

    The table has the primary key [id] and the global secondary indexes
    [appointmentTimeIndex] and [locationTimeIndex] on the attributes
    [appointmentTime] and [locationTimeKey]; the three attributes are
    declared with the type [S] ([serverless.yml]). *)

(** [KeySchema] of the table: the hash key. *)
Definition KeySchema : list string := ["id"].

(** [GlobalSecondaryIndexes]: the name of each index and its hash key. *)
Definition GlobalSecondaryIndexes : list (string * string) :=
  [("appointmentTimeIndex", "appointmentTime");
   ("locationTimeIndex", "locationTimeKey")].

(** A value the store takes for a key attribute of the type [S]: a string
    that is not empty. *)
Definition AttributeType_S (v : value) : bool :=
  match v with VStr s => negb (s =? "") | _ => false end.

(** Whether the store takes an item for its keys.  The key of the table
    must be there, with its type.  The key of an index may be missing (a
    property that is [undefined] is one the client leaves out, and the index
    then does not list the item), but it may not have another type. *)
Definition fits_key_schema (item : value) : bool :=
  forallb (fun name => AttributeType_S (field item name)) KeySchema &&
  forallb (fun index =>
             match field item (snd index) with
             | VUndefined => true
             | v => AttributeType_S v
             end) GlobalSecondaryIndexes.

Definition has_locationTimeKey (key : string) (item : value) : bool :=
  match field item "locationTimeKey" with
  | VStr k => k =? key
  | _ => false
  end.

Definition has_id (id : value) (item : value) : bool :=
  match id, field item "id" with
  | VStr i, VStr j => j =? i
  | _, _ => false
  end.

Definition log_call (c : store_call) (w : world) : world :=
  {| table := table w; calls := calls w ++ [c]; ticks := ticks w |}.

(** The DocumentClient is made with [convertEmptyValues: true]: on the way
    to the table it writes every empty string of an item, at any depth, as
    [null]. *)
Fixpoint convertEmptyValues (v : value) : value :=
  match v with
  | VStr s => if s =? "" then VNull else v
  | VArr elements => VArr (map convertEmptyValues elements)
  | VObj properties =>
      VObj (map (fun kv => (fst kv, convertEmptyValues (snd kv))) properties)
  | _ => v
  end.

Definition put_item (item : value) (w : world) : world :=
  {| table := table w ++ [item]; calls := calls w; ticks := ticks w |}.

(** The error of a request the store refuses for its parameters.  Its code
    is the store's; the text of its message stands for the wording of the
    service, which names the attribute and the types. *)
Definition ValidationException (e : engine) : js_error :=
  {| error_message := "Invalid request parameters";
     error_code := VStr "ValidationException";
     error_stack := stack_trace e "Invalid request parameters" |}.

(** The result object of a query. *)
Definition QueryOutput (items : list value) : value :=
  VObj [("Items", VArr items)].

(** [dynamoDb.query(params).promise()], awaited, for the key condition
    ['locationTimeKey = :locationTimeKey'] on the index: the items whose
    [locationTimeKey] is the string bound to [:locationTimeKey].  The promise
    is rejected when the service raises a fault. *)
Definition dynamoDb_query (e : engine) (o : oracle) (params : value) : M value :=
  fun w =>
    let w' := log_call (QueryCall params) w in
    match query_fault o with
    | Some err => (Throw err, w')
    | None =>
        match field (field params "ExpressionAttributeValues") ":locationTimeKey" with
        | VStr key =>
            (Normal (QueryOutput (filter (has_locationTimeKey key) (table w))), w')
        | _ => (Throw (ValidationException e), w')
        end
    end.

Definition ConditionalCheckFailedException (e : engine) : js_error :=
  {| error_message := "The conditional request failed";
     error_code := VStr "ConditionalCheckFailedException";
     error_stack := stack_trace e "The conditional request failed" |}.

(** [dynamoDb.put(params).promise()], awaited, with the condition
    ['attribute_not_exists(id)']: the item, as the client writes it, is added
    unless the service raises a fault, the item does not fit the keys of the
    table and of its indexes (the request is refused before its condition is
    looked at), or the table holds an item of the same [id]; a rejected put
    writes nothing. *)
Definition dynamoDb_put (e : engine) (o : oracle) (params : value) : M unit :=
  fun w =>
    let w' := log_call (PutCall params) w in
    match put_fault o with
    | Some err => (Throw err, w')
    | None =>
        let item := convertEmptyValues (field params "Item") in
        if negb (fits_key_schema item)
        then (Throw (ValidationException e), w')
        else if existsb (has_id (field item "id")) (table w)
        then (Throw (ConditionalCheckFailedException e), w')
        else (Normal tt, put_item item w')
    end.

(** ** The handler ([src/handlers/create.js]) *)

(** Every response of the handler: the status, the one header, and the
    JSON text of an object literal. *)
Definition reply (e : engine) (status : Z) (payload : value) : response :=
  {| statusCode := status;
     headers := [("Content-Type", "application/json")];
     body := JSON_stringify e payload |}.

Definition message_only (text : string) : value :=
  VObj [("message", VStr text)].

Definition SyntaxError (e : engine) : js_error :=
  {| error_message := "Unexpected token in JSON";
     error_code := VUndefined;
     error_stack := stack_trace e "Unexpected token in JSON" |}.

(** [JSON.parse(v)]: the argument is converted to a string first. *)
Definition JSON_parse_value (e : engine) (v : value) : completion value :=
  (text <- or_TypeError e "Cannot convert object to primitive value" (ToString e v);;
   match JSON_parse e text with
   | Some data => Normal data
   | None => Throw (SyntaxError e)
   end)%pure.

(** Lines 51-68: the payload is the parsed [event.body] when the event has a
    body, and the event itself otherwise. *)
Definition decode (e : engine) (event : value) : completion value :=
  (body <- Get e event "body";;
   if ToBoolean body then
     Pure.try_catch (JSON_parse_value e body)
       (fun error => Return (reply e 400 (message_only "Invalid request body format")))
   else Normal event)%pure.

Definition requiredFields : list string :=
  ["fullName"; "location"; "appointmentTime"; "car"; "services"].

(** Lines 72-81: [for (const field of requiredFields) if (!data[field]) return ...] *)
Fixpoint check_required (e : engine) (data : value) (fields : list string)
  : completion unit :=
  match fields with
  | [] => Normal tt
  | name :: rest =>
      (v <- Get e data name;;
       if negb (ToBoolean v) then
         Return (reply e 400 (message_only ("Missing required field: " ++ name)))
       else check_required e data rest)%pure
  end.

Definition Array_length (v : value) : nat :=
  match v with VArr elements => length elements | _ => 0 end.

(** Lines 70-102: the required fields, the shape of [services], the date. *)
Definition validate (e : engine) (data : value) : completion unit :=
  (check_required e data requiredFields;;
   services <- Get e data "services";;
   if negb (Array_isArray services) || (Array_length services =? 0)%nat then
     Return (reply e 400 (message_only "Services must be a non-empty array"))
   else
     appointmentTime <- Get e data "appointmentTime";;
     valid <- or_TypeError e "Cannot convert object to primitive value"
                (Date_valid e appointmentTime);;
     if negb valid then
       Return (reply e 400 (message_only "Invalid date format for appointmentTime"))
     else Normal tt)%pure.

(** Line 105: [`${data.location}#${data.appointmentTime}`] *)
Definition derive_key (e : engine) (data : value) : completion string :=
  (location <- Get e data "location";;
   location_text <- or_TypeError e "Cannot convert object to primitive value"
                      (ToString e location);;
   appointmentTime <- Get e data "appointmentTime";;
   time_text <- or_TypeError e "Cannot convert object to primitive value"
                  (ToString e appointmentTime);;
   Normal (location_text ++ "#" ++ time_text))%pure.

(** Lines 111-118 *)
Definition getParams_of (e : engine) (locationTimeKey : string) : value :=
  VObj [("TableName", VStr (TABLE_NAME e));
        ("IndexName", VStr "locationTimeIndex");
        ("KeyConditionExpression", VStr "locationTimeKey = :locationTimeKey");
        ("ExpressionAttributeValues",
         VObj [(":locationTimeKey", VStr locationTimeKey)])].

Definition conflict_response (e : engine) : response :=
  reply e 409 (message_only "This appointment time is already booked at this location").

(** Lines 138-149 *)
Definition query_error_response (e : engine) (getParams : value)
  (queryError : js_error) (time : string) : response :=
  reply e 500
    (VObj [("message", VStr "Could not process appointment request");
           ("error", VStr (error_message queryError));
           ("code", error_code queryError);
           ("time", VStr time);
           ("tableName", VStr (TABLE_NAME e));
           ("params", VStr (JSON_stringify e getParams))]).

(** Lines 123-150: the conflict check, in its own [try]/[catch]. *)
Definition check_conflict (e : engine) (o : oracle) (getParams : value) : M unit :=
  try_catch
    (existingAppointments <- dynamoDb_query e o getParams;;
     Items <- lift (Get e existingAppointments "Items");;
     if ToBoolean Items && (0 <? Array_length Items)%nat then
       return_ (conflict_response e)
     else ret tt)%js
    (fun queryError =>
       time <- now o;;
       return_ (query_error_response e getParams queryError time))%js.

(** Lines 156-166.  The reads of [data] cannot throw here: those of
    [validate] did not. *)
Definition item_of (data : value) (appointmentId locationTimeKey timestamp : string)
  : value :=
  VObj [("id", VStr appointmentId);
        ("fullName", field data "fullName");
        ("location", field data "location");
        ("appointmentTime", field data "appointmentTime");
        ("locationTimeKey", VStr locationTimeKey);
        ("car", field data "car");
        ("services", field data "services");
        ("createdAt", VStr timestamp);
        ("updatedAt", VStr timestamp)].

(** Lines 169-173 *)
Definition putParams_of (e : engine) (item : value) : value :=
  VObj [("TableName", VStr (TABLE_NAME e));
        ("Item", item);
        ("ConditionExpression", VStr "attribute_not_exists(id)")].

(** Lines 183-190 *)
Definition created_response (e : engine) (appointmentId : string) (item : value)
  : response :=
  reply e 200
    (VObj [("message", VStr "Appointment created successfully");
           ("appointmentId", VStr appointmentId);
           ("appointment", item)]).

(** Lines 193-204 *)
Definition put_error_response (e : engine) (params : value)
  (putError : js_error) (time : string) : response :=
  reply e 500
    (VObj [("message", VStr "Could not create appointment");
           ("error", VStr (error_message putError));
           ("code", error_code putError);
           ("time", VStr time);
           ("tableName", VStr (TABLE_NAME e));
           ("params", VStr (JSON_stringify e params))]).

(** Lines 178-205: the write, in its own [try]/[catch]. *)
Definition write_item (e : engine) (o : oracle) (appointmentId : string)
  (item params : value) : M response :=
  try_catch
    (dynamoDb_put e o params;;
     return_ (created_response e appointmentId item))%js
    (fun putError =>
       time <- now o;;
       return_ (put_error_response e params putError time))%js.

(** Lines 50-205: the body of the outer [try]. *)
Definition handler_try (e : engine) (o : oracle) (event : value) : M response :=
  (data <- lift (decode e event);;
   lift (validate e data);;
   locationTimeKey <- lift (derive_key e data);;
   let getParams := getParams_of e locationTimeKey in
   check_conflict e o getParams;;
   timestamp <- now o;;
   let appointmentId := uuid_v4 o in
   let item := item_of data appointmentId locationTimeKey timestamp in
   let params := putParams_of e item in
   write_item e o appointmentId item params)%js.

(** Lines 208-217 *)
Definition internal_error_response (e : engine) (error : js_error) (time : string)
  : response :=
  reply e 500
    (VObj [("message", VStr "Internal server error");
           ("error", VStr (error_message error));
           ("stack", VStr (error_stack error));
           ("time", VStr time)]).

(** Lines 206-218: the outer [catch]. *)
Definition handler_catch (e : engine) (o : oracle) (error : js_error) : M response :=
  (time <- now o;;
   return_ (internal_error_response e error time))%js.

(** How the promise of an [async] function settles. *)
Inductive settlement : Type :=
| Fulfilled (r : response)
| Rejected (err : js_error).

(** [module.exports.handler = async (event) => { try { ... } catch (error) { ... } }] *)
Definition handler (e : engine) (o : oracle) (event : value) (w : world)
  : settlement * world :=
  match try_catch (handler_try e o event) (handler_catch e o) w with
  | (Normal r, w') => (Fulfilled r, w')
  | (Return r, w') => (Fulfilled r, w')
  | (Throw err, w') => (Rejected err, w')
  end.

(** ** The vocabulary of the specification *)

(** The text of an element of a joined array. *)
Definition element_text (e : engine) (v : value) : option string :=
  match v with
  | VUndefined | VNull => Some ""
  | _ => ToString e v
  end.

Definition nullish (v : value) : bool :=
  match v with VUndefined | VNull => true | _ => false end.

(** The own property [name] of a payload, when it has one. *)
Definition property (data : value) (name : string) : option value :=
  match data with VObj properties => own name properties | _ => None end.

Definition present (data : value) (name : string) : bool :=
  match property data name with Some _ => true | None => false end.

(** The first field, in the order of [fields], that the payload does not
    bind to a truthy value. *)
Definition first_missing (data : value) (fields : list string) : option string :=
  find (fun name => negb (ToBoolean (field data name))) fields.

(** The first field, in the order of [fields], of which the payload has no
    property. *)
Definition first_absent (data : value) (fields : list string) : option string :=
  find (fun name => negb (present data name)) fields.

(** The fields that [fields] lists before [name]. *)
Fixpoint fields_before (name : string) (fields : list string) : list string :=
  match fields with
  | [] => []
  | f :: rest => if f =? name then [] else f :: fields_before name rest
  end.

Definition missing_field_response (e : engine) (name : string) : response :=
  reply e 400 (message_only ("Missing required field: " ++ name)).

(** The items of the table the index lists under [key]. *)
Definition booked (key : string) (w : world) : list value :=
  filter (has_locationTimeKey key) (table w).

(** What C7 states of a persisted field: a string that is not empty. *)
Definition non_empty_string (v : value) : bool :=
  match v with VStr s => negb (s =? "") | _ => false end.

(** The error with which the put of [item] is rejected in the world [w], if
    it is: the fault of the store, an item that does not fit the keys, or
    the failed condition ['attribute_not_exists(id)']. *)
Definition put_rejection (e : engine) (o : oracle) (item : value) (w : world)
  : option js_error :=
  match put_fault o with
  | Some err => Some err
  | None =>
      if negb (fits_key_schema (convertEmptyValues item))
      then Some (ValidationException e)
      else if existsb (has_id (field (convertEmptyValues item) "id")) (table w)
      then Some (ConditionalCheckFailedException e)
      else None
  end.

(** The paths through the handler, each with the response and the world it
    ends in.  [handler_paths] proves that every invocation takes one. *)
Inductive handler_path (e : engine) (o : oracle) (event : value) (w : world)
  : response -> world -> Prop :=
| path_decode_throws (err : js_error) :
    decode e event = Throw err ->
    handler_path e o event w
      (internal_error_response e err (toISOString o (ticks w))) (tick w)
| path_decode_returns (r : response) :
    decode e event = Return r ->
    handler_path e o event w r w
| path_validate_returns (data : value) (r : response) :
    decode e event = Normal data ->
    validate e data = Return r ->
    handler_path e o event w r w
| path_validate_throws (data : value) (err : js_error) :
    decode e event = Normal data ->
    validate e data = Throw err ->
    handler_path e o event w
      (internal_error_response e err (toISOString o (ticks w))) (tick w)
| path_derive_key_throws (data : value) (err : js_error) :
    decode e event = Normal data ->
    validate e data = Normal tt ->
    derive_key e data = Throw err ->
    handler_path e o event w
      (internal_error_response e err (toISOString o (ticks w))) (tick w)
| path_query_fails (data : value) (key : string) (err : js_error) :
    decode e event = Normal data ->
    validate e data = Normal tt ->
    derive_key e data = Normal key ->
    query_fault o = Some err ->
    handler_path e o event w
      (query_error_response e (getParams_of e key) err (toISOString o (ticks w)))
      (tick (log_call (QueryCall (getParams_of e key)) w))
| path_conflict (data : value) (key : string) :
    decode e event = Normal data ->
    validate e data = Normal tt ->
    derive_key e data = Normal key ->
    query_fault o = None ->
    booked key w <> [] ->
    handler_path e o event w
      (conflict_response e)
      (log_call (QueryCall (getParams_of e key)) w)
| path_put_fails (data : value) (key : string) (err : js_error) :
    decode e event = Normal data ->
    validate e data = Normal tt ->
    derive_key e data = Normal key ->
    query_fault o = None ->
    booked key w = [] ->
    let item := item_of data (uuid_v4 o) key (toISOString o (ticks w)) in
    put_rejection e o item w = Some err ->
    handler_path e o event w
      (put_error_response e (putParams_of e item) err (toISOString o (S (ticks w))))
      (tick (log_call (PutCall (putParams_of e item))
               (tick (log_call (QueryCall (getParams_of e key)) w))))
| path_created (data : value) (key : string) :
    decode e event = Normal data ->
    validate e data = Normal tt ->
    derive_key e data = Normal key ->
    query_fault o = None ->
    booked key w = [] ->
    let item := item_of data (uuid_v4 o) key (toISOString o (ticks w)) in
    put_rejection e o item w = None ->
    handler_path e o event w
      (created_response e (uuid_v4 o) item)
      (put_item (convertEmptyValues item)
         (log_call (PutCall (putParams_of e item))
            (tick (log_call (QueryCall (getParams_of e key)) w)))).

(** The keys under which the index lists the items of a table, and the ids
    of its items. *)
Definition slot_keys (items : list value) : list string :=
  flat_map (fun item =>
              match field item "locationTimeKey" with
              | VStr k => [k]
              | _ => []
              end) items.

Definition item_ids (items : list value) : list string :=
  flat_map (fun item =>
              match field item "id" with
              | VStr i => [i]
              | _ => []
              end) items.

(** Invocations served one after the other, each with its event and its
    oracle, on the world the one before left. *)
Fixpoint serve (e : engine) (requests : list (oracle * value)) (w : world)
  : list settlement * world :=
  match requests with
  | [] => ([], w)
  | (o, event) :: rest =>
      let (answer, w1) := handler e o event w in
      let (answers, w2) := serve e rest w1 in
      (answer :: answers, w2)
  end.

(** ** Inputs of the test suite ([tests/create.test.js]) *)

(** A text between double quotes (the character 34), to write down the
    bodies the suite reads. *)
Definition quoted (text : string) : string :=
  String "034" (text ++ String "034" "").

Definition jane : value :=
  VObj [("fullName", VStr "Jane Doe");
        ("location", VStr "Farrish Subaru");
        ("appointmentTime", VStr "2025-04-20T15:30:00Z");
        ("car", VStr "Subaru Outback");
        ("services", VArr [VStr "Oil Change"; VStr "Tire Rotation"])].

(** An engine that renders no number, to write the bodies of the suite. *)
Definition plain_engine : engine :=
  {| JSON_parse := fun _ => None;
     Date_parse := fun _ => None;
     Number_toString := fun _ => "NaN";
     stack_trace := fun _ => "";
     DYNAMODB_TABLE := Some "service-appointment-api-test" |}.

Definition jane_body : string := JSON_stringify plain_engine jane.

(** The engine as far as the suite exercises it: it parses the body of the
    suite and the body [null], and the one timestamp of the suite (20 April
    2025, 15:30 UTC, in milliseconds); no number is rendered. *)
Definition test_engine : engine :=
  {| JSON_parse := fun text =>
       if text =? jane_body then Some jane
       else if text =? "null" then Some VNull
       else None;
     Date_parse := fun text =>
       if text =? "2025-04-20T15:30:00Z" then Some 1745163000000%Z else None;
     Number_toString := fun _ => "NaN";
     stack_trace := fun _ => "";
     DYNAMODB_TABLE := Some "service-appointment-api-test" |}.

(** The mocks of the suite: the id is ['test-uuid-12345'], the store
    answers. *)
Definition test_oracle : oracle :=
  {| uuid_v4 := "test-uuid-12345";
     toISOString := fun _ => "2025-04-01T12:00:00.000Z";
     query_fault := None;
     put_fault := None |}.

Definition empty_world : world := {| table := []; calls := []; ticks := 0 |}.

(** The event of the suite: the request as the body of an API Gateway
    event. *)
Definition jane_event : value := VObj [("body", VStr jane_body)].

(** The fifth test of the suite: the query is rejected with
    [new Error('Query Error')]. *)
Definition outage_oracle : oracle :=
  {| uuid_v4 := "test-uuid-12345";
     toISOString := fun _ => "2025-04-01T12:00:00.000Z";
     query_fault :=
       Some {| error_message := "Query Error";
               error_code := VUndefined;
               error_stack := "Error: Query Error" |};
     put_fault := None |}.

(** The sixth test of the suite: the put is rejected with
    [new Error('Put Error')]. *)
Definition put_outage_oracle : oracle :=
  {| uuid_v4 := "test-uuid-12345";
     toISOString := fun _ => "2025-04-01T12:00:00.000Z";
     query_fault := None;
     put_fault :=
       Some {| error_message := "Put Error";
               error_code := VUndefined;
               error_stack := "Error: Put Error" |} |}.

(** The answer the sixth test expects: the status 500 and the message
    "Could not create appointment", with the detail of the rejected put. *)
Definition put_failure_answer : response :=
  {| statusCode := 500;
     headers := [("Content-Type", "application/json")];
     body :=
       JSON_stringify plain_engine
         (VObj [("message", VStr "Could not create appointment");
                ("error", VStr "Put Error");
                ("time", VStr "2025-04-01T12:00:00.000Z");
                ("tableName", VStr "service-appointment-api-test");
                ("params",
                 VStr (JSON_stringify plain_engine
                         (VObj [("TableName", VStr "service-appointment-api-test");
                                ("Item",
                                 VObj [("id", VStr "test-uuid-12345");
                                       ("fullName", VStr "Jane Doe");
                                       ("location", VStr "Farrish Subaru");
                                       ("appointmentTime", VStr "2025-04-20T15:30:00Z");
                                       ("locationTimeKey",
                                        VStr "Farrish Subaru#2025-04-20T15:30:00Z");
                                       ("car", VStr "Subaru Outback");
                                       ("services",
                                        VArr [VStr "Oil Change"; VStr "Tire Rotation"]);
                                       ("createdAt", VStr "2025-04-01T12:00:00.000Z");
                                       ("updatedAt", VStr "2025-04-01T12:00:00.000Z")]);
                                ("ConditionExpression",
                                 VStr "attribute_not_exists(id)")])))]) |}.

(** The response a test reads from the settled promise; a rejected promise
    has none, and the status 0 stands for that. *)
Definition answer_of (answer : settlement) : response :=
  match answer with
  | Fulfilled r => r
  | Rejected _ => {| statusCode := 0; headers := []; body := "" |}
  end.

(** A table that holds a booking of the slot of the suite. *)
Definition booked_world : world :=
  {| table :=
       [VObj [("id", VStr "existing-id");
              ("appointmentTime", VStr "2025-04-20T15:30:00Z");
              ("location", VStr "Farrish Subaru");
              ("locationTimeKey", VStr "Farrish Subaru#2025-04-20T15:30:00Z")]];
     calls := [];
     ticks := 0 |}.

(** The third test of the suite ([services] is a string), with a timestamp
    that does not parse either. *)
Definition oil_change_only : value :=
  VObj [("fullName", VStr "Jane Doe");
        ("location", VStr "Farrish Subaru");
        ("appointmentTime", VStr "next Tuesday");
        ("car", VStr "Subaru Outback");
        ("services", VStr "Oil Change")].

(** The request of the suite with an empty [car], without [car], and with
    the boolean [true] for [fullName]. *)
Definition jane_empty_car : value :=
  VObj [("fullName", VStr "Jane Doe");
        ("location", VStr "Farrish Subaru");
        ("appointmentTime", VStr "2025-04-20T15:30:00Z");
        ("car", VStr "");
        ("services", VArr [VStr "Oil Change"; VStr "Tire Rotation"])].

(** A request whose timestamp does not parse. *)
Definition jane_next_tuesday : value :=
  VObj [("fullName", VStr "Jane Doe");
        ("location", VStr "Farrish Subaru");
        ("appointmentTime", VStr "next Tuesday");
        ("car", VStr "Subaru Outback");
        ("services", VArr [VStr "Oil Change"])].

(** The request of the suite with one service, the empty string. *)
Definition jane_unnamed_service : value :=
  VObj [("fullName", VStr "Jane Doe");
        ("location", VStr "Farrish Subaru");
        ("appointmentTime", VStr "2025-04-20T15:30:00Z");
        ("car", VStr "Subaru Outback");
        ("services", VArr [VStr ""])].


(** A payload with nothing but an empty [car]. *)
Definition only_empty_car : value := VObj [("car", VStr "")].

Definition jane_without_car : value :=
  VObj [("fullName", VStr "Jane Doe");
        ("location", VStr "Farrish Subaru");
        ("appointmentTime", VStr "2025-04-20T15:30:00Z");
        ("services", VArr [VStr "Oil Change"; VStr "Tire Rotation"])].

Definition jane_named_true : value :=
  VObj [("fullName", VBool true);
        ("location", VStr "Farrish Subaru");
        ("appointmentTime", VStr "2025-04-20T15:30:00Z");
        ("car", VStr "Subaru Outback");
        ("services", VArr [VStr "Oil Change"; VStr "Tire Rotation"])].

(** ** The configuration of the module (lines 11-33) *)

(** The two environment variables the module reads besides
    [DYNAMODB_TABLE]; [None] is a variable that is not set. *)
Record process_env : Type := {
  AWS_REGION : option string;
  IS_OFFLINE_variable : option string
}.

(** [const REGION = process.env.AWS_REGION || 'us-east-1'] *)
Definition REGION (env : process_env) : string :=
  match AWS_REGION env with
  | Some region => if region =? "" then "us-east-1" else region
  | None => "us-east-1"
  end.

(** [const IS_OFFLINE = process.env.IS_OFFLINE || false]: the text of the
    variable when it is set and not empty, [false] otherwise. *)
Definition IS_OFFLINE (env : process_env) : value :=
  match IS_OFFLINE_variable env with
  | Some text => if text =? "" then VBool false else VStr text
  | None => VBool false
  end.

(** [dynamoDbConfig], after the [if (IS_OFFLINE)] that adds the endpoint of
    the local instance. *)
Definition dynamoDbConfig (env : process_env) : value :=
  VObj ([("region", VStr (REGION env)); ("convertEmptyValues", VBool true)] ++
        (if ToBoolean (IS_OFFLINE env)
         then [("endpoint", VStr "http://localhost:8000")]
         else []))%list.

(** ** The caller of the end-to-end tests ([tests/e2e.test.js], lines 29-50) *)

(** What [fetch] and [response.text()] give for a request: a rejection, or
    the status and the text of the response. *)
Inductive fetch_outcome : Type :=
| FetchRejected (error : js_error)
| FetchAnswered (status : Z) (responseText : string).

(** [callApi(body)]: the request carries [JSON.stringify(body)]; an empty
    response text gives [null] for [data], any other text is parsed; a
    rejection of [fetch] and a text that does not parse end in the [catch],
    which answers with the status 500 and the message of the error.  The
    result [{ status, data }] is the pair. *)
Definition callApi (e : engine) (fetch : string -> fetch_outcome) (body : value)
  : Z * value :=
  match fetch (JSON_stringify e body) with
  | FetchRejected error => (500%Z, message_only (error_message error))
  | FetchAnswered status responseText =>
      if negb (responseText =? "") then
        match JSON_parse e responseText with
        | Some data => (status, data)
        | None => (500%Z, message_only (error_message (SyntaxError e)))
        end
      else (status, VNull)
  end.

(** ** More vocabulary *)

(** Whether a text holds the separator [#] of the key. *)
Fixpoint has_hash (s : string) : bool :=
  match s with
  | EmptyString => false
  | String c rest => (nat_of_ascii c =? 35)%nat || has_hash rest
  end.

(** The answers of a run that created an appointment. *)
Definition created_count (answers : list settlement) : nat :=
  length (filter (fun answer =>
                    match answer with
                    | Fulfilled r => (statusCode r =? 200)%Z
                    | Rejected _ => false
                    end) answers).

(** The request of the suite with its [location] as an array of one string,
    the same request with an [id] and a [locationTimeKey] of the caller's,
    and an environment with the text [false] for [IS_OFFLINE], as the unit
    tests set it. *)
Definition jane_location_array : value :=
  VObj [("fullName", VStr "Jane Doe");
        ("location", VArr [VStr "Farrish Subaru"]);
        ("appointmentTime", VStr "2025-04-20T15:30:00Z");
        ("car", VStr "Subaru Outback");
        ("services", VArr [VStr "Oil Change"; VStr "Tire Rotation"])].

Definition jane_with_own_id : value :=
  VObj [("id", VStr "mine");
        ("locationTimeKey", VStr "anywhere#anytime");
        ("fullName", VStr "Jane Doe");
        ("location", VStr "Farrish Subaru");
        ("appointmentTime", VStr "2025-04-20T15:30:00Z");
        ("car", VStr "Subaru Outback");
        ("services", VArr [VStr "Oil Change"; VStr "Tire Rotation"])].

Definition offline_env : process_env :=
  {| AWS_REGION := None; IS_OFFLINE_variable := Some "false" |}.

(** The deployed function as the third end-to-end test meets it: the
    transport hands the text of the request to the handler, on a table that
    holds the slot, and returns its status and body; the engine parses the
    body of the suite and the body of the conflict answer. *)
Definition conflict_body : string :=
  "{" ++ quoted "message" ++ ":" ++
  quoted "This appointment time is already booked at this location" ++ "}".

Definition e2e_engine : engine :=
  {| JSON_parse := fun text =>
       if text =? jane_body then Some jane
       else if text =? conflict_body then
         Some (VObj [("message",
                      VStr "This appointment time is already booked at this location")])
       else None;
     Date_parse := fun text =>
       if text =? "2025-04-20T15:30:00Z" then Some 1745163000000%Z else None;
     Number_toString := fun _ => "NaN";
     stack_trace := fun _ => "";
     DYNAMODB_TABLE := Some "service-appointment-api-test" |}.

Definition e2e_fetch (text : string) : fetch_outcome :=
  match fst (handler e2e_engine test_oracle (VObj [("body", VStr text)]) booked_world) with
  | Fulfilled r => FetchAnswered (statusCode r) (body r)
  | Rejected error => FetchRejected error
  end.

(** ** The handler over a client, and the mocks of the unit tests
    ([tests/create.test.js], lines 29-55) *)

(** The two methods of the DocumentClient the handler calls, each with its
    [promise()] awaited. *)
Record DocumentClient : Type := {
  query_promise : value -> M value;
  put_promise : value -> M unit
}.

(** The client of the module: [new AWS.DynamoDB.DocumentClient(dynamoDbConfig)]. *)
Definition dynamoDb (e : engine) (o : oracle) : DocumentClient :=
  {| query_promise := dynamoDb_query e o;
     put_promise := dynamoDb_put e o |}.

(** Lines 123-150, over a client. *)
Definition check_conflict_with (client : DocumentClient) (e : engine) (o : oracle)
  (getParams : value) : M unit :=
  try_catch
    (existingAppointments <- query_promise client getParams;;
     Items <- lift (Get e existingAppointments "Items");;
     if ToBoolean Items && (0 <? Array_length Items)%nat then
       return_ (conflict_response e)
     else ret tt)%js
    (fun queryError =>
       time <- now o;;
       return_ (query_error_response e getParams queryError time))%js.

(** Lines 178-205, over a client. *)
Definition write_item_with (client : DocumentClient) (e : engine) (o : oracle)
  (appointmentId : string) (item params : value) : M response :=
  try_catch
    (put_promise client params;;
     return_ (created_response e appointmentId item))%js
    (fun putError =>
       time <- now o;;
       return_ (put_error_response e params putError time))%js.

(** The handler over a client: the statements of [handler], with the client
    in the place of [dynamoDb]. *)
Definition handler_with (client : DocumentClient) (e : engine) (o : oracle)
  (event : value) (w : world) : settlement * world :=
  match
    try_catch
      (data <- lift (decode e event);;
       lift (validate e data);;
       locationTimeKey <- lift (derive_key e data);;
       let getParams := getParams_of e locationTimeKey in
       check_conflict_with client e o getParams;;
       timestamp <- now o;;
       let appointmentId := uuid_v4 o in
       let item := item_of data appointmentId locationTimeKey timestamp in
       let params := putParams_of e item in
       write_item_with client e o appointmentId item params)%js
      (handler_catch e o) w
  with
  | (Normal r, w') => (Fulfilled r, w')
  | (Return r, w') => (Fulfilled r, w')
  | (Throw err, w') => (Rejected err, w')
  end.

(** What a mocked promise settles to: [mockResolvedValue(a)] or
    [mockRejectedValue(error)]. *)
Inductive settled (A : Type) : Type :=
| Resolved (a : A)
| RejectedWith (error : js_error).

Arguments Resolved {A} a.
Arguments RejectedWith {A} error.

(** What a mocked query resolves to: [undefined] for a mock that was given
    no value, or an output with or without [Items], as the type
    [QueryOutput] of the SDK has it. *)
Inductive mocked_output : Type :=
| OutputUndefined
| Output (Items : option (list value)).

Definition mocked_output_value (output : mocked_output) : value :=
  match output with
  | OutputUndefined => VUndefined
  | Output None => VObj []
  | Output (Some items) => VObj [("Items", VArr items)]
  end.

(** The mocked client: [query()] and [put()] ignore their parameters and
    the table; their [promise] functions record the call and settle as the
    test set them up. *)
Definition mockDocumentClient (mockQueryPromise : settled mocked_output)
  (mockPutPromise : settled unit) : DocumentClient :=
  {| query_promise := fun params w =>
       (match mockQueryPromise with
        | Resolved output => Normal (mocked_output_value output)
        | RejectedWith error => Throw error
        end, log_call (QueryCall params) w);
     put_promise := fun params w =>
       (match mockPutPromise with
        | Resolved _ => Normal tt
        | RejectedWith error => Throw error
        end, log_call (PutCall params) w) |}.

(** The item the mocked query of the fourth test resolves with. *)
Definition existing_item : value :=
  VObj [("id", VStr "existing-id");
        ("appointmentTime", VStr "2025-04-20T15:30:00Z");
        ("location", VStr "Farrish Subaru")].

(** ** The steps of the handler *)

Lemma Get_field (e : engine) (v : value) (key : string) :
  nullish v = false -> Get e v key = Normal (field v key).
Proof. destruct v; simpl; intros H; try discriminate H; reflexivity. Qed.

Lemma Get_nullish (e : engine) (v : value) (key : string) :
  nullish v = true -> exists err, Get e v key = Throw err.
Proof. destruct v; simpl; intros H; try discriminate H; eexists; reflexivity. Qed.

Lemma truthy_field_not_nullish (data : value) (name : string) :
  ToBoolean (field data name) = true -> nullish data = false.
Proof. destruct data; simpl; intros H; try discriminate H; reflexivity. Qed.

(** The loop over the required fields stops at the first field that is not
    truthy. *)
Lemma check_required_spec (e : engine) (data : value) (fields : list string) :
  nullish data = false ->
  check_required e data fields =
    match first_missing data fields with
    | Some name => Return (missing_field_response e name)
    | None => Normal tt
    end.
Proof.
  intros Hdata. unfold first_missing.
  induction fields as [|name rest IH]; [reflexivity|].
  cbn [check_required find]. rewrite (Get_field e data name Hdata).
  cbn [Pure.bind]. destruct (negb (ToBoolean (field data name))); [reflexivity|].
  exact IH.
Qed.

Lemma first_missing_In (data : value) (fields : list string) (name : string) :
  first_missing data fields = Some name ->
  In name fields /\ ToBoolean (field data name) = false.
Proof.
  unfold first_missing. intros H. apply find_some in H. destruct H as [Hin Hb].
  split; [exact Hin|]. now apply negb_true_iff in Hb.
Qed.

Lemma first_missing_None (data : value) (fields : list string) :
  first_missing data fields = None <->
  (forall name, In name fields -> ToBoolean (field data name) = true).
Proof.
  unfold first_missing. split.
  - intros H name Hin. pose proof (find_none _ _ H name Hin) as Hb.
    now apply negb_false_iff in Hb.
  - intros H. induction fields as [|f rest IH]; [reflexivity|].
    cbn [find]. rewrite (H f (or_introl eq_refl)). cbn [negb].
    apply IH. intros name Hin. apply H. now right.
Qed.

Lemma first_missing_exists (data : value) (fields : list string) (f : string) :
  In f fields -> ToBoolean (field data f) = false ->
  exists name, first_missing data fields = Some name.
Proof.
  intros Hin Hf. destruct (first_missing data fields) as [name|] eqn:E.
  - now exists name.
  - rewrite first_missing_None in E. rewrite (E f Hin) in Hf. discriminate Hf.
Qed.

(** The first field that is not truthy is [name] when the fields listed
    before it are truthy and it is not. *)
Lemma first_missing_at (data : value) (fields : list string) (name : string) :
  In name fields ->
  ToBoolean (field data name) = false ->
  forallb (fun f => ToBoolean (field data f)) (fields_before name fields) = true ->
  first_missing data fields = Some name.
Proof.
  unfold first_missing. induction fields as [|f rest IH]; intros Hin Hf Hpre.
  - destruct Hin.
  - cbn [find fields_before] in *. destruct (f =? name) eqn:E.
    + apply String.eqb_eq in E. subst f. rewrite Hf. reflexivity.
    + cbn [forallb] in Hpre. apply andb_true_iff in Hpre. destruct Hpre as [H1 H2].
      rewrite H1. cbn [negb]. apply IH; [|exact Hf|exact H2].
      destruct Hin as [Heq|Hin]; [|exact Hin].
      subst f. rewrite String.eqb_refl in E. discriminate E.
Qed.

(** The fields listed before the first field that is not truthy are
    truthy. *)
Lemma first_missing_before (data : value) (fields : list string) (name : string) :
  first_missing data fields = Some name ->
  forallb (fun f => ToBoolean (field data f)) (fields_before name fields) = true.
Proof.
  unfold first_missing. induction fields as [|f rest IH]; intros H; [reflexivity|].
  cbn [find fields_before] in *. destruct (f =? name) eqn:E; [reflexivity|].
  destruct (ToBoolean (field data f)) eqn:Hf; cbn [negb] in H.
  - cbn [forallb]. rewrite Hf. exact (IH H).
  - injection H as ->. rewrite String.eqb_refl in E. discriminate E.
Qed.

(** When the payload binds to a truthy value every field of [fields] that
    it has, the fields it does not bind to a truthy value are the fields it
    does not have. *)
Lemma first_missing_absent (data : value) (fields : list string) :
  (forall f v, In f fields -> property data f = Some v -> ToBoolean v = true) ->
  first_missing data fields = first_absent data fields.
Proof.
  intros H. unfold first_missing, first_absent.
  induction fields as [|f rest IH]; [reflexivity|].
  cbn [find]. rewrite IH by (intros g v Hin; apply H; now right).
  assert (E : ToBoolean (field data f) = present data f).
  { unfold present, field, property in *. destruct data; try reflexivity.
    specialize (H f). cbn in H.
    destruct (own f properties) as [v|]; [|reflexivity].
    apply (H v); [now left|reflexivity]. }
  rewrite E. reflexivity.
Qed.

(** A response of the validation is the response of the handler, and the
    world is untouched. *)
Lemma handler_decode_Return (e : engine) (o : oracle) (event : value) (w : world)
  (r : response) :
  decode e event = Return r -> handler e o event w = (Fulfilled r, w).
Proof.
  intros H. unfold handler, try_catch, handler_try, bind, lift. rewrite H. reflexivity.
Qed.

Lemma handler_validate_Return (e : engine) (o : oracle) (event : value) (w : world)
  (data : value) (r : response) :
  decode e event = Normal data -> validate e data = Return r ->
  handler e o event w = (Fulfilled r, w).
Proof.
  intros H1 H2. unfold handler, try_catch, handler_try, bind, lift.
  rewrite H1, H2. reflexivity.
Qed.

Lemma validate_missing (e : engine) (data : value) (name : string) :
  nullish data = false ->
  first_missing data requiredFields = Some name ->
  validate e data = Return (missing_field_response e name).
Proof.
  intros Hdata H. unfold validate.
  rewrite (check_required_spec e data requiredFields Hdata), H. reflexivity.
Qed.

(** ** Validation *)

Lemma property_field (data : value) (name : string) (v : value) :
  property data name = Some v -> field data name = v /\ nullish data = false.
Proof.
  destruct data; cbn; intros H; try discriminate H.
  rewrite H. split; reflexivity.
Qed.

(** C6, as amended.  For every decoded payload other than [null] that does
    not bind one of the five required fields to a truthy value, the handler
    answers 400 with the message "Missing required field: X" and touches
    nothing, where X is the first field, in the order fullName, location,
    appointmentTime, car, services, that is absent or falsy; when every
    required field the payload has is truthy, X is the first absent
    field. *)
Theorem first_missing_field_reported (e : engine) (o : oracle) (event : value)
  (w : world) (data : value) (f : string) :
  decode e event = Normal data ->
  nullish data = false ->
  In f requiredFields ->
  ToBoolean (field data f) = false ->
  exists name r,
    first_missing data requiredFields = Some name /\
    handler e o event w = (Fulfilled r, w) /\
    statusCode r = 400%Z /\
    headers r = [("Content-Type", "application/json")] /\
    body r =
      JSON_stringify e (VObj [("message", VStr ("Missing required field: " ++ name))]) /\
    ((forall g v, In g requiredFields -> property data g = Some v ->
                  ToBoolean v = true) ->
     first_absent data requiredFields = Some name).
Proof.
  intros Hdecode Hdata Hin Hf.
  destruct (first_missing_exists data requiredFields f Hin Hf) as [name Hname].
  exists name, (missing_field_response e name). split; [exact Hname|]. split.
  { apply (handler_validate_Return e o event w data); [exact Hdecode|].
    now apply validate_missing. }
  repeat (split; [reflexivity|]).
  intros Hall. rewrite <- (first_missing_absent data requiredFields Hall).
  exact Hname.
Qed.

(** The second test of the suite: only [fullName] is given, and [location]
    is the field reported. *)
Lemma first_missing_field_reported_witness :
  (exists name r,
     first_missing (VObj [("fullName", VStr "Jane Doe")]) requiredFields = Some name /\
     handler test_engine test_oracle (VObj [("fullName", VStr "Jane Doe")]) empty_world =
       (Fulfilled r, empty_world) /\
     statusCode r = 400%Z /\
     headers r = [("Content-Type", "application/json")] /\
     body r =
       JSON_stringify test_engine
         (VObj [("message", VStr ("Missing required field: " ++ name))]) /\
     ((forall g v, In g requiredFields ->
                   property (VObj [("fullName", VStr "Jane Doe")]) g = Some v ->
                   ToBoolean v = true) ->
      first_absent (VObj [("fullName", VStr "Jane Doe")]) requiredFields = Some name)) /\
  fst (handler test_engine test_oracle (VObj [("fullName", VStr "Jane Doe")]) empty_world) =
    Fulfilled
      {| statusCode := 400;
         headers := [("Content-Type", "application/json")];
         body := "{" ++ quoted "message" ++ ":" ++
                 quoted "Missing required field: location" ++ "}" |}.
Proof.
  split; [|reflexivity].
  apply (first_missing_field_reported test_engine test_oracle
           (VObj [("fullName", VStr "Jane Doe")]) empty_world
           (VObj [("fullName", VStr "Jane Doe")]) "location").
  - reflexivity.
  - reflexivity.
  - simpl. tauto.
  - reflexivity.
Defined.

(** C6 as stated fails on two payloads.  The payload with the one
    property [fullName], bound to the empty string, has
    [fullName] and lacks the four other fields: its first absent field is
    [location], and the handler reports [fullName].  The body [null] decodes
    to a payload that has none of the fields, and the handler answers 500
    from its outer [catch]. *)
Lemma first_absent_field_not_reported :
  first_absent (VObj [("fullName", VStr "")]) requiredFields = Some "location" /\
  handler test_engine test_oracle (VObj [("fullName", VStr "")]) empty_world =
    (Fulfilled
       {| statusCode := 400;
          headers := [("Content-Type", "application/json")];
          body := "{" ++ quoted "message" ++ ":" ++
                  quoted "Missing required field: fullName" ++ "}" |},
     empty_world) /\
  decode test_engine (VObj [("body", VStr "null")]) = Normal VNull /\
  first_absent VNull requiredFields = Some "fullName" /\
  handler test_engine test_oracle (VObj [("body", VStr "null")]) empty_world =
    (Fulfilled
       {| statusCode := 500;
          headers := [("Content-Type", "application/json")];
          body := "{" ++ quoted "message" ++ ":" ++ quoted "Internal server error" ++ "," ++
                  quoted "error" ++ ":" ++
                  quoted "Cannot read properties of null (reading 'fullName')" ++ "," ++
                  quoted "stack" ++ ":" ++ quoted "" ++ "," ++
                  quoted "time" ++ ":" ++ quoted "2025-04-01T12:00:00.000Z" ++ "}" |},
     tick empty_world).
Proof. repeat split; reflexivity. Qed.

(** C8.  For every decoded payload whose five required fields are truthy and
    whose [services] is not an array or is the empty array, the handler
    answers 400 with the message "Services must be a non-empty array" and
    touches nothing.  Nothing is asked of [appointmentTime] beyond being
    truthy: the check of the shape comes before the check of the date. *)
Theorem services_shape_checked_before_date (e : engine) (o : oracle) (event : value)
  (w : world) (data : value) :
  decode e event = Normal data ->
  (forall name, In name requiredFields -> ToBoolean (field data name) = true) ->
  Array_isArray (field data "services") = false \/ field data "services" = VArr [] ->
  exists r,
    handler e o event w = (Fulfilled r, w) /\
    statusCode r = 400%Z /\
    headers r = [("Content-Type", "application/json")] /\
    body r =
      JSON_stringify e (VObj [("message", VStr "Services must be a non-empty array")]) /\
    body r <>
      JSON_stringify e (VObj [("message", VStr "Invalid date format for appointmentTime")]).
Proof.
  intros Hdecode Hall Hshape.
  exists (reply e 400 (message_only "Services must be a non-empty array")).
  split.
  { apply (handler_validate_Return e o event w data); [exact Hdecode|].
    assert (Hdata : nullish data = false).
    { apply (truthy_field_not_nullish data "services"). apply Hall. simpl. tauto. }
    unfold validate.
    rewrite (check_required_spec e data requiredFields Hdata).
    apply first_missing_None in Hall. rewrite Hall.
    cbn [Pure.bind]. rewrite (Get_field e data "services" Hdata). cbn [Pure.bind].
    destruct Hshape as [H|H]; rewrite H; reflexivity. }
  repeat (split; [reflexivity|]).
  cbv. discriminate.
Qed.

(** The third test of the suite, with a timestamp that does not parse
    either: the answer is the one for [services]. *)
Lemma services_shape_checked_before_date_witness :
  Date_valid test_engine (field oil_change_only "appointmentTime") = Some false /\
  (exists r,
     handler test_engine test_oracle oil_change_only empty_world =
       (Fulfilled r, empty_world) /\
     statusCode r = 400%Z /\
     headers r = [("Content-Type", "application/json")] /\
     body r =
       JSON_stringify test_engine
         (VObj [("message", VStr "Services must be a non-empty array")]) /\
     body r <>
       JSON_stringify test_engine
         (VObj [("message", VStr "Invalid date format for appointmentTime")])) /\
  fst (handler test_engine test_oracle oil_change_only empty_world) =
    Fulfilled
      {| statusCode := 400;
         headers := [("Content-Type", "application/json")];
         body := "{" ++ quoted "message" ++ ":" ++
                 quoted "Services must be a non-empty array" ++ "}" |}.
Proof.
  split; [reflexivity|]. split; [|reflexivity].
  apply (services_shape_checked_before_date test_engine test_oracle
           oil_change_only empty_world oil_change_only).
  - reflexivity.
  - intros name Hin. simpl in Hin.
    repeat (destruct Hin as [<-|Hin]; [reflexivity|]). destruct Hin.
  - left. reflexivity.
Defined.

(** C9, as amended.  For every decoded payload in which a required field
    is present with a falsy value (an empty string, for one), the handler
    answers 400 with the message "Missing required field: X" and touches
    nothing: the check does not tell a falsy field from an absent one.  X
    is the first required field, in the order fullName, location,
    appointmentTime, car, services, that the payload does not bind to a
    truthy value; it is the falsy field itself exactly when the required
    fields listed before it are all truthy. *)
Theorem falsy_field_reported_missing (e : engine) (o : oracle) (event : value)
  (w : world) (data : value) (name : string) (v : value) :
  decode e event = Normal data ->
  In name requiredFields ->
  property data name = Some v ->
  ToBoolean v = false ->
  exists reported r,
    first_missing data requiredFields = Some reported /\
    handler e o event w = (Fulfilled r, w) /\
    statusCode r = 400%Z /\
    headers r = [("Content-Type", "application/json")] /\
    body r =
      JSON_stringify e
        (VObj [("message", VStr ("Missing required field: " ++ reported))]) /\
    (reported = name <->
     forallb (fun f => ToBoolean (field data f)) (fields_before name requiredFields)
       = true).
Proof.
  intros Hdecode Hin Hprop Hv.
  destruct (property_field data name v Hprop) as [Hfield Hdata].
  assert (Hf : ToBoolean (field data name) = false) by now rewrite Hfield.
  destruct (first_missing_exists data requiredFields name Hin Hf) as [reported Hrep].
  exists reported, (missing_field_response e reported).
  split; [exact Hrep|]. split.
  { apply (handler_validate_Return e o event w data); [exact Hdecode|].
    now apply validate_missing. }
  repeat (split; [reflexivity|]).
  split.
  - intros <-. exact (first_missing_before data requiredFields reported Hrep).
  - intros Hpre.
    rewrite (first_missing_at data requiredFields name Hin Hf Hpre) in Hrep.
    now injection Hrep as <-.
Qed.

(** The request of the suite with an empty [car]: the four fields before
    [car] are truthy, and [car] is the field reported. *)
Lemma falsy_field_reported_missing_witness :
  (exists reported r,
     first_missing jane_empty_car requiredFields = Some reported /\
     handler test_engine test_oracle jane_empty_car empty_world =
       (Fulfilled r, empty_world) /\
     statusCode r = 400%Z /\
     headers r = [("Content-Type", "application/json")] /\
     body r =
       JSON_stringify test_engine
         (VObj [("message", VStr ("Missing required field: " ++ reported))]) /\
     (reported = "car" <->
      forallb (fun f => ToBoolean (field jane_empty_car f))
        (fields_before "car" requiredFields) = true)) /\
  fst (handler test_engine test_oracle jane_empty_car empty_world) =
    Fulfilled
      {| statusCode := 400;
         headers := [("Content-Type", "application/json")];
         body := "{" ++ quoted "message" ++ ":" ++
                 quoted "Missing required field: car" ++ "}" |}.
Proof.
  split; [|reflexivity].
  apply (falsy_field_reported_missing test_engine test_oracle jane_empty_car
           empty_world jane_empty_car "car" (VStr "")).
  - reflexivity.
  - simpl. tauto.
  - reflexivity.
  - reflexivity.
Defined.

(** C9 as stated fails on a payload whose falsy field is not the first
    field it lacks.  The payload with the one property [car], bound to the
    empty string, has a required field that is present and falsy, and the
    handler reports [fullName], not [car]. *)
Lemma falsy_field_not_the_field_reported :
  property only_empty_car "car" = Some (VStr "") /\
  ToBoolean (VStr "") = false /\
  handler test_engine test_oracle only_empty_car empty_world =
    (Fulfilled
       {| statusCode := 400;
          headers := [("Content-Type", "application/json")];
          body := "{" ++ quoted "message" ++ ":" ++
                  quoted "Missing required field: fullName" ++ "}" |},
     empty_world) /\
  "{" ++ quoted "message" ++ ":" ++ quoted "Missing required field: fullName" ++ "}" <>
  "{" ++ quoted "message" ++ ":" ++ quoted "Missing required field: car" ++ "}".
Proof. repeat split; try reflexivity. discriminate. Qed.

(** ** The store round trips *)

Lemma check_conflict_fault (e : engine) (o : oracle) (key : string) (w : world)
  (err : js_error) :
  query_fault o = Some err ->
  check_conflict e o (getParams_of e key) w =
    (Return (query_error_response e (getParams_of e key) err (toISOString o (ticks w))),
     tick (log_call (QueryCall (getParams_of e key)) w)).
Proof.
  intros H. unfold check_conflict, try_catch, bind, dynamoDb_query. rewrite H.
  reflexivity.
Qed.

Lemma check_conflict_booked (e : engine) (o : oracle) (key : string) (w : world) :
  query_fault o = None ->
  booked key w <> [] ->
  check_conflict e o (getParams_of e key) w =
    (Return (conflict_response e), log_call (QueryCall (getParams_of e key)) w).
Proof.
  intros H Hb. unfold check_conflict, try_catch, bind, dynamoDb_query. rewrite H.
  cbn [getParams_of field own String.eqb Ascii.eqb Bool.eqb].
  fold (booked key w). unfold lift, QueryOutput.
  cbn [Get field own String.eqb Ascii.eqb Bool.eqb ToBoolean Array_length andb].
  destruct (booked key w) as [|x l]; [contradiction|]. reflexivity.
Qed.

Lemma check_conflict_free (e : engine) (o : oracle) (key : string) (w : world) :
  query_fault o = None ->
  booked key w = [] ->
  check_conflict e o (getParams_of e key) w =
    (Normal tt, log_call (QueryCall (getParams_of e key)) w).
Proof.
  intros H Hb. unfold check_conflict, try_catch, bind, dynamoDb_query. rewrite H.
  cbn [getParams_of field own String.eqb Ascii.eqb Bool.eqb].
  fold (booked key w). rewrite Hb. reflexivity.
Qed.

Lemma write_item_rejected (e : engine) (o : oracle) (id : string) (item : value)
  (w : world) (err : js_error) :
  put_rejection e o item w = Some err ->
  write_item e o id item (putParams_of e item) w =
    (Return (put_error_response e (putParams_of e item) err (toISOString o (ticks w))),
     tick (log_call (PutCall (putParams_of e item)) w)).
Proof.
  unfold put_rejection, write_item, try_catch, bind, dynamoDb_put.
  cbn [putParams_of field own String.eqb Ascii.eqb Bool.eqb log_call table].
  destruct (put_fault o) as [err'|].
  - intros [= <-]. reflexivity.
  - destruct (fits_key_schema (convertEmptyValues item)); cbn [negb].
    + destruct (existsb (has_id (field (convertEmptyValues item) "id")) (table w)).
      * intros [= <-]. reflexivity.
      * discriminate.
    + intros [= <-]. reflexivity.
Qed.

Lemma write_item_accepted (e : engine) (o : oracle) (id : string) (item : value)
  (w : world) :
  put_rejection e o item w = None ->
  write_item e o id item (putParams_of e item) w =
    (Return (created_response e id item),
     put_item (convertEmptyValues item) (log_call (PutCall (putParams_of e item)) w)).
Proof.
  unfold put_rejection, write_item, try_catch, bind, dynamoDb_put.
  cbn [putParams_of field own String.eqb Ascii.eqb Bool.eqb log_call table].
  destruct (put_fault o) as [err'|]; [discriminate|].
  destruct (fits_key_schema (convertEmptyValues item)); cbn [negb]; [|discriminate].
  destruct (existsb (has_id (field (convertEmptyValues item) "id")) (table w));
    [discriminate|].
  reflexivity.
Qed.

(** The handler after its three pure steps. *)
Lemma handler_after_validation (e : engine) (o : oracle) (event : value) (w : world)
  (data : value) (key : string) :
  decode e event = Normal data ->
  validate e data = Normal tt ->
  derive_key e data = Normal key ->
  handler e o event w =
    match check_conflict e o (getParams_of e key) w with
    | (Normal _, w1) =>
        let item := item_of data (uuid_v4 o) key (toISOString o (ticks w1)) in
        match write_item e o (uuid_v4 o) item (putParams_of e item) (tick w1) with
        | (Normal r, w2) => (Fulfilled r, w2)
        | (Return r, w2) => (Fulfilled r, w2)
        | (Throw err, w2) =>
            (Fulfilled (internal_error_response e err (toISOString o (ticks w2))),
             tick w2)
        end
    | (Return r, w1) => (Fulfilled r, w1)
    | (Throw err, w1) =>
        (Fulfilled (internal_error_response e err (toISOString o (ticks w1))), tick w1)
    end.
Proof.
  intros H1 H2 H3. unfold handler, try_catch, handler_try, bind, lift.
  rewrite H1, H2, H3.
  destruct (check_conflict e o (getParams_of e key) w) as [[[]|r|err] w1];
    try reflexivity.
  unfold now.
  destruct (write_item _ _ _ _ _ _) as [[r|r|err] w2]; reflexivity.
Qed.

(** The derivation of the key has no [return] statement. *)
Lemma derive_key_not_Return (e : engine) (data : value) (r : response) :
  derive_key e data <> Return r.
Proof.
  unfold derive_key, Pure.bind, or_TypeError, Get. intros H.
  destruct data; try discriminate H;
    repeat match type of H with
           | context [match ToString ?a ?b with _ => _ end] =>
               destruct (ToString a b); try discriminate H
           end.
Qed.

(** Every invocation takes one of the paths of [handler_path]: the handler
    always answers. *)
Lemma handler_paths (e : engine) (o : oracle) (event : value) (w : world) :
  exists r w', handler e o event w = (Fulfilled r, w') /\ handler_path e o event w r w'.
Proof.
  destruct (decode e event) as [data|r|err] eqn:Hdecode.
  2:{ exists r, w. split.
      - apply handler_decode_Return. exact Hdecode.
      - apply path_decode_returns. exact Hdecode. }
  2:{ eexists _, _. split.
      - unfold handler, try_catch, handler_try, bind, lift. rewrite Hdecode. reflexivity.
      - apply path_decode_throws. exact Hdecode. }
  destruct (validate e data) as [[]|r|err] eqn:Hvalidate.
  2:{ exists r, w. split.
      - apply (handler_validate_Return e o event w data); assumption.
      - apply (path_validate_returns e o event w data); assumption. }
  2:{ eexists _, _. split.
      - unfold handler, try_catch, handler_try, bind, lift.
        rewrite Hdecode, Hvalidate. reflexivity.
      - apply (path_validate_throws e o event w data); assumption. }
  destruct (derive_key e data) as [key|r|err] eqn:Hkey.
  3:{ eexists _, _. split.
      - unfold handler, try_catch, handler_try, bind, lift.
        rewrite Hdecode, Hvalidate, Hkey. reflexivity.
      - apply (path_derive_key_throws e o event w data); assumption. }
  2:{ exfalso. exact (derive_key_not_Return e data r Hkey). }
  rewrite (handler_after_validation e o event w data key Hdecode Hvalidate Hkey).
  destruct (query_fault o) as [err|] eqn:Hq.
  { rewrite (check_conflict_fault e o key w err Hq).
    eexists _, _. split; [reflexivity|].
    apply (path_query_fails e o event w data); assumption. }
  destruct (booked key w) as [|x l] eqn:Hb.
  2:{ rewrite (check_conflict_booked e o key w Hq) by (rewrite Hb; discriminate).
      eexists _, _. split; [reflexivity|].
      apply (path_conflict e o event w data); try assumption. rewrite Hb. discriminate. }
  rewrite (check_conflict_free e o key w Hq Hb).
  cbv zeta.
  set (w1 := log_call (QueryCall (getParams_of e key)) w).
  set (item := item_of data (uuid_v4 o) key (toISOString o (ticks w1))).
  destruct (put_rejection e o item (tick w1)) as [err|] eqn:Hput.
  - rewrite (write_item_rejected e o (uuid_v4 o) item (tick w1) err Hput).
    eexists _, _. split; [reflexivity|].
    apply (path_put_fails e o event w data key err); assumption.
  - rewrite (write_item_accepted e o (uuid_v4 o) item (tick w1) Hput).
    eexists _, _. split; [reflexivity|].
    apply (path_created e o event w data key); assumption.
Qed.

(** ** What the validation returns and what passes it *)

Lemma Get_not_Return (e : engine) (v : value) (key : string) (r : response) :
  Get e v key <> Return r.
Proof. destruct v; discriminate. Qed.

Lemma JSON_parse_value_not_Return (e : engine) (v : value) (r : response) :
  JSON_parse_value e v <> Return r.
Proof.
  unfold JSON_parse_value, or_TypeError.
  destruct (ToString e v) as [text|]; cbn [Pure.bind]; [|discriminate].
  destruct (JSON_parse e text); discriminate.
Qed.

Lemma decode_Return (e : engine) (event : value) (r : response) :
  decode e event = Return r ->
  r = reply e 400 (message_only "Invalid request body format").
Proof.
  unfold decode. intros H.
  destruct (Get e event "body") as [body|r'|err] eqn:Hbody; cbn [Pure.bind] in H.
  - destruct (ToBoolean body); [|discriminate H].
    unfold Pure.try_catch in H.
    destruct (JSON_parse_value e body) as [data|r'|err] eqn:Hparse.
    + discriminate H.
    + destruct (JSON_parse_value_not_Return e body r' Hparse).
    + now injection H as <-.
  - destruct (Get_not_Return e event "body" r' Hbody).
  - discriminate H.
Qed.

Lemma validate_Return (e : engine) (data : value) (r : response) :
  validate e data = Return r ->
  exists text, r = reply e 400 (message_only text).
Proof.
  unfold validate. intros H.
  destruct (nullish data) eqn:Hdata.
  { destruct (Get_nullish e data "fullName" Hdata) as [err Herr].
    cbn [requiredFields check_required] in H. rewrite Herr in H. discriminate H. }
  rewrite (check_required_spec e data requiredFields Hdata) in H.
  destruct (first_missing data requiredFields) as [name|].
  { injection H as <-. eexists. reflexivity. }
  cbn [Pure.bind] in H.
  rewrite !(Get_field e data _ Hdata) in H. cbn [Pure.bind] in H.
  destruct (negb (Array_isArray (field data "services")) ||
            (Array_length (field data "services") =? 0)%nat).
  { injection H as <-. eexists. reflexivity. }
  destruct (Date_valid e (field data "appointmentTime")) as [[|]|];
    cbn in H; try discriminate H.
  injection H as <-. eexists. reflexivity.
Qed.

Lemma nonempty_array (v : value) :
  negb (Array_isArray v) || (Array_length v =? 0)%nat = false <->
  exists s ss, v = VArr (s :: ss).
Proof.
  split.
  - destruct v as [| | | | |[|s ss]|]; cbn; intros H; try discriminate H.
    now exists s, ss.
  - intros (s & ss & ->). reflexivity.
Qed.

(** What passes the validation: a payload that binds the five required
    fields to truthy values, [services] to a non-empty array and
    [appointmentTime] to a value of which [new Date] makes a valid date. *)
Lemma validate_Normal (e : engine) (data : value) :
  validate e data = Normal tt <->
  (forall name, In name requiredFields -> ToBoolean (field data name) = true) /\
  (exists s ss, field data "services" = VArr (s :: ss)) /\
  Date_valid e (field data "appointmentTime") = Some true.
Proof.
  unfold validate. split.
  - intros H.
    destruct (nullish data) eqn:Hdata.
    { destruct (Get_nullish e data "fullName" Hdata) as [err Herr].
      cbn [requiredFields check_required] in H. rewrite Herr in H. discriminate H. }
    rewrite (check_required_spec e data requiredFields Hdata) in H.
    destruct (first_missing data requiredFields) as [name|] eqn:Hmissing;
      [discriminate H|].
    cbn [Pure.bind] in H.
    rewrite !(Get_field e data _ Hdata) in H. cbn [Pure.bind] in H.
    destruct (negb (Array_isArray (field data "services")) ||
              (Array_length (field data "services") =? 0)%nat) eqn:Hshape;
      [discriminate H|].
    destruct (Date_valid e (field data "appointmentTime")) as [[|]|];
      cbn in H; try discriminate H.
    split; [now apply first_missing_None|]. split; [now apply nonempty_array|reflexivity].
  - intros (Hall & Hshape & Hdate).
    assert (Hdata : nullish data = false).
    { apply (truthy_field_not_nullish data "services"). apply Hall. simpl. tauto. }
    rewrite (check_required_spec e data requiredFields Hdata).
    apply first_missing_None in Hall. rewrite Hall. cbn [Pure.bind].
    rewrite !(Get_field e data _ Hdata). cbn [Pure.bind].
    apply nonempty_array in Hshape. rewrite Hshape, Hdate. reflexivity.
Qed.

Lemma validate_Normal_not_nullish (e : engine) (data : value) :
  validate e data = Normal tt -> nullish data = false.
Proof.
  intros H. apply validate_Normal in H. destruct H as (Hall & _).
  apply (truthy_field_not_nullish data "services"). apply Hall. simpl. tauto.
Qed.

(** The key is the text of [location], a [#], and the text of
    [appointmentTime]. *)
Lemma derive_key_Normal (e : engine) (data : value) (key : string) :
  nullish data = false ->
  derive_key e data = Normal key <->
  exists location time,
    ToString e (field data "location") = Some location /\
    ToString e (field data "appointmentTime") = Some time /\
    key = location ++ "#" ++ time.
Proof.
  intros Hdata. unfold derive_key. rewrite !(Get_field e data _ Hdata).
  cbn [Pure.bind]. unfold or_TypeError. split.
  - destruct (ToString e (field data "location")) as [l|]; cbn [Pure.bind];
      [|discriminate].
    destruct (ToString e (field data "appointmentTime")) as [t|]; cbn [Pure.bind];
      [|discriminate].
    intros [= <-]. now exists l, t.
  - intros (l & t & -> & -> & ->). reflexivity.
Qed.

(** Two payloads with the same [location] and [appointmentTime] have the
    same key. *)
Lemma derive_key_same_slot (e : engine) (data1 data2 : value) :
  nullish data1 = false -> nullish data2 = false ->
  field data2 "location" = field data1 "location" ->
  field data2 "appointmentTime" = field data1 "appointmentTime" ->
  derive_key e data2 = derive_key e data1.
Proof.
  intros H1 H2 Hl Ht. unfold derive_key.
  rewrite !(Get_field e data1 _ H1), !(Get_field e data2 _ H2), Hl, Ht. reflexivity.
Qed.


(** ** The item as the client writes it *)

(** Induction over a value and the values inside it. *)
Lemma value_nested_ind (P : value -> Prop) :
  P VUndefined -> P VNull -> (forall b, P (VBool b)) -> (forall x, P (VNum x)) ->
  (forall s, P (VStr s)) ->
  (forall elements, Forall P elements -> P (VArr elements)) ->
  (forall properties, Forall (fun kv => P (snd kv)) properties -> P (VObj properties)) ->
  forall v, P v.
Proof.
  intros Hundefined Hnull Hbool Hnum Hstr Harr Hobj.
  fix IH 1. intros [| |b|x|s|elements|properties].
  - exact Hundefined.
  - exact Hnull.
  - apply Hbool.
  - apply Hnum.
  - apply Hstr.
  - apply Harr. induction elements as [|v rest IHrest]; constructor.
    + apply IH.
    + exact IHrest.
  - apply Hobj. induction properties as [|[k v] rest IHrest]; constructor.
    + apply IH.
    + exact IHrest.
Qed.

Lemma ToBoolean_convertEmptyValues (v : value) :
  ToBoolean (convertEmptyValues v) = ToBoolean v.
Proof.
  destruct v as [| |b|x|s|elements|properties]; try reflexivity.
  cbn [convertEmptyValues]. destruct (s =? "") eqn:E; cbn [ToBoolean]; rewrite ?E;
    reflexivity.
Qed.

Lemma own_convertEmptyValues (key : string) (properties : list (string * value)) :
  own key (map (fun kv => (fst kv, convertEmptyValues (snd kv))) properties) =
  option_map convertEmptyValues (own key properties).
Proof.
  induction properties as [|[k v] rest IH]; [reflexivity|].
  cbn [map own fst snd]. destruct (k =? key); [reflexivity|exact IH].
Qed.

Lemma field_convertEmptyValues (v : value) (key : string) :
  field (convertEmptyValues v) key = convertEmptyValues (field v key).
Proof.
  destruct v as [| |b|x|s|elements|properties]; try reflexivity.
  - cbn [convertEmptyValues field]. destruct (s =? ""); reflexivity.
  - cbn [convertEmptyValues field]. rewrite own_convertEmptyValues.
    destruct (own key properties); reflexivity.
Qed.

Lemma Array_join_convertEmptyValues (e : engine) (elements : list value) :
  Forall (fun v => element_text e (convertEmptyValues v) = element_text e v) elements ->
  Array_join (ToString e) (map convertEmptyValues elements) =
  Array_join (ToString e) elements.
Proof.
  induction 1 as [|v rest Hv Hrest IH]; [reflexivity|].
  cbn [map Array_join].
  change (match convertEmptyValues v with
          | VUndefined | VNull => Some ""
          | _ => ToString e (convertEmptyValues v)
          end) with (element_text e (convertEmptyValues v)).
  change (match v with
          | VUndefined | VNull => Some ""
          | _ => ToString e v
          end) with (element_text e v).
  rewrite Hv, IH. destruct rest; reflexivity.
Qed.

(** In a joined array an empty string and [null] read the same, so the
    client's conversion does not change the text of an array or of an
    object. *)
Lemma element_text_convertEmptyValues (e : engine) (v : value) :
  element_text e (convertEmptyValues v) = element_text e v.
Proof.
  induction v as [| |b|x|s|elements IH|properties IH] using value_nested_ind;
    try reflexivity.
  - cbn [convertEmptyValues]. destruct (s =? "") eqn:E; [|reflexivity].
    apply String.eqb_eq in E. now subst s.
  - cbn [convertEmptyValues element_text ToString].
    now apply Array_join_convertEmptyValues.
  - cbn [convertEmptyValues element_text ToString]. unfold has_own.
    rewrite own_convertEmptyValues. destruct (own "toString" properties); reflexivity.
Qed.

Lemma Date_valid_convertEmptyValues (e : engine) (v : value) :
  ToBoolean v = true ->
  Date_valid e (convertEmptyValues v) = Date_valid e v.
Proof.
  intros Htruthy.
  destruct v as [| |b|x|s|elements|properties]; try reflexivity.
  - cbn [ToBoolean] in Htruthy. cbn [convertEmptyValues].
    destruct (s =? ""); [discriminate Htruthy|reflexivity].
  - pose proof (element_text_convertEmptyValues e (VArr elements)) as H.
    cbn [convertEmptyValues element_text] in H.
    cbn [convertEmptyValues Date_valid]. now rewrite H.
  - pose proof (element_text_convertEmptyValues e (VObj properties)) as H.
    cbn [convertEmptyValues element_text] in H.
    cbn [convertEmptyValues Date_valid]. now rewrite H.
Qed.

Lemma derive_key_not_empty (e : engine) (data : value) (key : string) :
  derive_key e data = Normal key -> (key =? "") = false.
Proof.
  unfold derive_key, Pure.bind, or_TypeError, Get. intros H.
  destruct data; try discriminate H;
    repeat match type of H with
           | context [match ToString ?a ?b with _ => _ end] =>
               destruct (ToString a b) as [[|? ?]|]; try discriminate H
           end;
    injection H as <-; reflexivity.
Qed.

(** The required fields of the written item are those of the payload, as
    the client writes them. *)
Lemma field_written_item (data : value) (id key timestamp name : string) :
  In name requiredFields ->
  field (convertEmptyValues (item_of data id key timestamp)) name =
  convertEmptyValues (field data name).
Proof.
  intros Hin. rewrite field_convertEmptyValues. simpl in Hin.
  repeat (destruct Hin as [<-|Hin]; [reflexivity|]). destruct Hin.
Qed.

Lemma written_item_is_booked (data : value) (id key timestamp : string) :
(key =? "") = false ->
  has_locationTimeKey key (convertEmptyValues (item_of data id key timestamp)) = true.
Proof.
  intros Hkey. unfold has_locationTimeKey. rewrite field_convertEmptyValues.
  change (field (item_of data id key timestamp) "locationTimeKey") with (VStr key).
  cbn [convertEmptyValues]. rewrite Hkey. apply String.eqb_refl.
Qed.

(** When the put of an item is accepted. *)
Lemma put_rejection_None (e : engine) (o : oracle) (item : value) (w : world) :
  put_rejection e o item w = None <->
  put_fault o = None /\
  fits_key_schema (convertEmptyValues item) = true /\
  existsb (has_id (field (convertEmptyValues item) "id")) (table w) = false.
Proof.
  unfold put_rejection. split.
  - destruct (put_fault o); [discriminate|].
    destruct (fits_key_schema (convertEmptyValues item)); cbn [negb]; [|discriminate].
    destruct (existsb _ (table w)); [discriminate|]. now repeat split.
  - intros (-> & -> & ->). reflexivity.
Qed.

(** The item the handler writes fits the keys exactly when the generated
    id is not empty and [appointmentTime] is a string that is not empty (the
    key made of the two texts never is). *)
Lemma written_item_fits_key_schema (data : value) (id key timestamp : string) :
  (key =? "") = false ->
  ToBoolean (field data "appointmentTime") = true ->
  fits_key_schema (convertEmptyValues (item_of data id key timestamp)) = true <->
  id <> "" /\ exists time, field data "appointmentTime" = VStr time.
Proof.
  intros Hkey Htruthy. unfold fits_key_schema, KeySchema, GlobalSecondaryIndexes.
  cbn [forallb snd]. rewrite !field_convertEmptyValues.
  change (field (item_of data id key timestamp) "id") with (VStr id).
  change (field (item_of data id key timestamp) "locationTimeKey") with (VStr key).
  change (field (item_of data id key timestamp) "appointmentTime")
    with (field data "appointmentTime").
  cbn [convertEmptyValues]. rewrite Hkey. cbn [AttributeType_S]. rewrite Hkey.
  cbn [negb]. rewrite !andb_true_r.
  destruct (id =? "") eqn:Hid.
  - cbn [AttributeType_S andb]. split; [discriminate|].
    intros [H _]. apply String.eqb_eq in Hid. now destruct H.
  - cbn [AttributeType_S]. rewrite Hid. cbn [negb andb].
    apply String.eqb_neq in Hid.
    destruct (field data "appointmentTime") as [| |b|x|t|l|ps];
      cbn [convertEmptyValues ToBoolean] in *; try discriminate Htruthy;
      try (split; [discriminate|intros (_ & time & H); discriminate H]).
    destruct (t =? "") eqn:Ht; [discriminate Htruthy|].
    cbn [AttributeType_S]. rewrite Ht. split; [|reflexivity].
    intros _. split; [exact Hid|now exists t].
Qed.

(** The status of the response on each path. *)
Lemma handler_path_status (e : engine) (o : oracle) (event : value) (w : world)
  (r : response) (w' : world) :
  handler_path e o event w r w' ->
  (statusCode r = 200%Z /\
   exists data key,
     decode e event = Normal data /\ validate e data = Normal tt /\
     derive_key e data = Normal key /\ query_fault o = None /\ booked key w = [] /\
     let item := item_of data (uuid_v4 o) key (toISOString o (ticks w)) in
     put_rejection e o item w = None /\
     r = created_response e (uuid_v4 o) item /\
     table w' = (table w ++ [convertEmptyValues item])%list) \/
  (In (statusCode r) [400; 409; 500]%Z /\ table w' = table w).
Proof.
  intros H. destruct H as [err H|r H|data r H1 H2|data err H1 H2|data err H1 H2 H3
                          |data key err H1 H2 H3 H4|data key H1 H2 H3 H4 H5
                          |data key err H1 H2 H3 H4 H5 item H6
                          |data key H1 H2 H3 H4 H5 item H6].
  - right. split; [simpl; tauto|reflexivity].
  - right. rewrite (decode_Return e event r H). split; [simpl; tauto|reflexivity].
  - right. destruct (validate_Return e data r H2) as [text ->].
    split; [simpl; tauto|reflexivity].
  - right. split; [simpl; tauto|reflexivity].
  - right. split; [simpl; tauto|reflexivity].
  - right. split; [simpl; tauto|reflexivity].
  - right. split; [simpl; tauto|reflexivity].
  - right. split; [simpl; tauto|reflexivity].
  - left. split; [reflexivity|]. exists data, key.
    repeat split; try assumption.
Qed.

(** ** The store paths *)



(** C2.  For every payload that passes the validation and has the key
    [key], when the query succeeds and finds an item under that key, the
    handler answers with the status 409 and a body that is the JSON text of
    the one message "This appointment time is already booked at this
    location"; the table is unchanged and the one call made to the store is
    the query: no put is attempted. *)
Theorem booked_slot_answers_conflict (e : engine) (o : oracle) (event : value)
  (w : world) (data : value) (key : string) :
  decode e event = Normal data ->
  validate e data = Normal tt ->
  derive_key e data = Normal key ->
  query_fault o = None ->
  booked key w <> [] ->
  exists r w',
    handler e o event w = (Fulfilled r, w') /\
    statusCode r = 409%Z /\
    headers r = [("Content-Type", "application/json")] /\
    body r =
      JSON_stringify e
        (VObj [("message",
                VStr "This appointment time is already booked at this location")]) /\
    table w' = table w /\
    calls w' = (calls w ++ [QueryCall (getParams_of e key)])%list.
Proof.
  intros Hdecode Hvalidate Hkey Hquery Hbooked.
  rewrite (handler_after_validation e o event w data key Hdecode Hvalidate Hkey).
  rewrite (check_conflict_booked e o key w Hquery Hbooked).
  eexists _, _. split; [reflexivity|]. repeat split.
Qed.

(** The fourth test of the suite: the slot is booked. *)
Lemma booked_slot_answers_conflict_witness :
  (exists r w',
     handler test_engine test_oracle jane_event booked_world = (Fulfilled r, w') /\
     statusCode r = 409%Z /\
     headers r = [("Content-Type", "application/json")] /\
     body r =
       JSON_stringify test_engine
         (VObj [("message",
                 VStr "This appointment time is already booked at this location")]) /\
     table w' = table booked_world /\
     calls w' =
       (calls booked_world ++
        [QueryCall (getParams_of test_engine "Farrish Subaru#2025-04-20T15:30:00Z")])%list) /\
  fst (handler test_engine test_oracle jane_event booked_world) =
    Fulfilled
      {| statusCode := 409;
         headers := [("Content-Type", "application/json")];
         body := "{" ++ quoted "message" ++ ":" ++
                 quoted "This appointment time is already booked at this location" ++
                 "}" |}.
Proof.
  split; [|reflexivity].
  apply (booked_slot_answers_conflict test_engine test_oracle jane_event booked_world
           jane "Farrish Subaru#2025-04-20T15:30:00Z").
  - reflexivity.
  - reflexivity.
  - reflexivity.
  - reflexivity.
  - discriminate.
Defined.

(** C4.  For every payload that passes the validation and has the key
    [key] (so that the query is issued), when the store rejects the query
    with an error, the handler answers with the status 500 and a body that
    is the JSON text of the message "Could not process appointment request"
    and the fields [error] and [code] (the message and the code of that
    error), [time], [tableName] and [params] (the text of the parameters of
    the query); the table is unchanged and the one call made to the store
    is the query: no put is attempted. *)
Theorem failed_query_answers_500 (e : engine) (o : oracle) (event : value)
  (w : world) (data : value) (key : string) (queryError : js_error) :
  decode e event = Normal data ->
  validate e data = Normal tt ->
  derive_key e data = Normal key ->
  query_fault o = Some queryError ->
  exists r w',
    handler e o event w = (Fulfilled r, w') /\
    statusCode r = 500%Z /\
    headers r = [("Content-Type", "application/json")] /\
    body r =
      JSON_stringify e
        (VObj [("message", VStr "Could not process appointment request");
               ("error", VStr (error_message queryError));
               ("code", error_code queryError);
               ("time", VStr (toISOString o (ticks w)));
               ("tableName", VStr (TABLE_NAME e));
               ("params", VStr (JSON_stringify e (getParams_of e key)))]) /\
    table w' = table w /\
    calls w' = (calls w ++ [QueryCall (getParams_of e key)])%list /\
    (forall params, In (PutCall params) (calls w') -> In (PutCall params) (calls w)).
Proof.
  intros Hdecode Hvalidate Hkey Hquery.
  rewrite (handler_after_validation e o event w data key Hdecode Hvalidate Hkey).
  rewrite (check_conflict_fault e o key w queryError Hquery).
  eexists _, _. split; [reflexivity|]. repeat (split; [reflexivity|]).
  intros params Hin. cbn [calls tick log_call] in Hin.
  apply in_app_or in Hin. destruct Hin as [Hin|[Hin|[]]]; [exact Hin|discriminate Hin].
Qed.

(** The fifth test of the suite: the query fails with a plain [Error], which
    has no [code], and the body has no member [code].  The member [params]
    is a string, the JSON text of the parameters: inside it every double
    quote follows a backslash. *)
Lemma failed_query_answers_500_witness :
  (exists r w',
     handler test_engine outage_oracle jane_event empty_world = (Fulfilled r, w') /\
     statusCode r = 500%Z /\
     headers r = [("Content-Type", "application/json")] /\
     body r =
       JSON_stringify test_engine
         (VObj [("message", VStr "Could not process appointment request");
                ("error", VStr "Query Error");
                ("code", VUndefined);
                ("time", VStr (toISOString outage_oracle (ticks empty_world)));
                ("tableName", VStr (TABLE_NAME test_engine));
                ("params",
                 VStr (JSON_stringify test_engine
                         (getParams_of test_engine
                            "Farrish Subaru#2025-04-20T15:30:00Z")))]) /\
     table w' = table empty_world /\
     calls w' =
       (calls empty_world ++
        [QueryCall (getParams_of test_engine "Farrish Subaru#2025-04-20T15:30:00Z")])%list /\
     (forall params,
        In (PutCall params) (calls w') -> In (PutCall params) (calls empty_world))) /\
  fst (handler test_engine outage_oracle jane_event empty_world) =
    Fulfilled
      {| statusCode := 500;
         headers := [("Content-Type", "application/json")];
         body :=
           "{" ++ quoted "message" ++ ":" ++
           quoted "Could not process appointment request" ++
           "," ++ quoted "error" ++ ":" ++ quoted "Query Error" ++
           "," ++ quoted "time" ++ ":" ++ quoted "2025-04-01T12:00:00.000Z" ++
           "," ++ quoted "tableName" ++ ":" ++ quoted "service-appointment-api-test" ++
           "," ++ quoted "params" ++ ":" ++
           quoted ("{\" ++ quoted "TableName\" ++ ":\" ++
                   quoted "service-appointment-api-test\" ++ ",\" ++
                   quoted "IndexName\" ++ ":\" ++ quoted "locationTimeIndex\" ++ ",\" ++
                   quoted "KeyConditionExpression\" ++ ":\" ++
                   quoted "locationTimeKey = :locationTimeKey\" ++ ",\" ++
                   quoted "ExpressionAttributeValues\" ++ ":{\" ++
                   quoted ":locationTimeKey\" ++ ":\" ++
                   quoted "Farrish Subaru#2025-04-20T15:30:00Z\" ++ "}}") ++
           "}" |}.
Proof.
  split; [|reflexivity].
  apply (failed_query_answers_500 test_engine outage_oracle jane_event empty_world
           jane "Farrish Subaru#2025-04-20T15:30:00Z"
           {| error_message := "Query Error";
              error_code := VUndefined;
              error_stack := "Error: Query Error" |}).
  - reflexivity.
  - reflexivity.
  - reflexivity.
  - reflexivity.
Defined.

(** ** Every invocation *)


(** The outer [catch] is reached: the body [null] decodes to [null], the
    read of its first field throws, and the answer is the 500 of the outer
    [catch]. *)
Lemma null_payload_throws :
  handler_try test_engine test_oracle (VObj [("body", VStr "null")]) empty_world =
    (Throw (TypeError test_engine "Cannot read properties of null (reading 'fullName')"),
     empty_world) /\
  fst (handler test_engine test_oracle (VObj [("body", VStr "null")]) empty_world) =
    Fulfilled
      {| statusCode := 500;
         headers := [("Content-Type", "application/json")];
         body := "{" ++ quoted "message" ++ ":" ++ quoted "Internal server error" ++ "," ++
                 quoted "error" ++ ":" ++
                 quoted "Cannot read properties of null (reading 'fullName')" ++ "," ++
                 quoted "stack" ++ ":" ++ quoted "" ++ "," ++
                 quoted "time" ++ ":" ++ quoted "2025-04-01T12:00:00.000Z" ++ "}" |}.
Proof. split; reflexivity. Qed.

(** The puts of an invocation: none, unless the response is the created
    appointment or the failure of the write. *)
Lemma handler_path_puts (e : engine) (o : oracle) (event : value) (w : world)
  (r : response) (w' : world) :
  handler_path e o event w r w' ->
  forall params,
    In (PutCall params) (calls w') ->
    In (PutCall params) (calls w) \/
    statusCode r = 200%Z \/
    exists putError time,
      statusCode r = 500%Z /\
      headers r = [("Content-Type", "application/json")] /\
      body r =
        JSON_stringify e
          (VObj [("message", VStr "Could not create appointment");
                 ("error", VStr (error_message putError));
                 ("code", error_code putError);
                 ("time", VStr time);
                 ("tableName", VStr (TABLE_NAME e));
                 ("params", VStr (JSON_stringify e params))]).
Proof.
  intros H params Hin.
  destruct H as [err H|r H|data r H1 H2|data err H1 H2|data err H1 H2 H3
                |data key err H1 H2 H3 H4|data key H1 H2 H3 H4 H5
                |data key err H1 H2 H3 H4 H5 item H6
                |data key H1 H2 H3 H4 H5 item H6];
    cbn [calls tick log_call put_item] in Hin;
    try (now left);
    repeat (apply in_app_or in Hin; destruct Hin as [Hin|Hin]);
    try (now left);
    try (destruct Hin as [Hin|[]]; discriminate Hin).
  - destruct Hin as [Hin|[]]. injection Hin as <-.
    right. right. exists err, (toISOString o (S (ticks w))). now repeat split.
  - right. left. reflexivity.
Qed.

(** C5.  Every invocation that answers with a status other than 200 leaves
    the table as it was; and it has not even called the put of the store,
    unless its answer is the failure of that put (the status 500 with the
    message "Could not create appointment"), which the store rejected
    without writing. *)
Theorem failure_leaves_table_unchanged (e : engine) (o : oracle) (event : value)
  (w : world) (r : response) (w' : world) :
  handler e o event w = (Fulfilled r, w') ->
  statusCode r <> 200%Z ->
  table w' = table w /\
  (forall params,
     In (PutCall params) (calls w') ->
     In (PutCall params) (calls w) \/
     exists putError time,
       statusCode r = 500%Z /\
       headers r = [("Content-Type", "application/json")] /\
       body r =
         JSON_stringify e
           (VObj [("message", VStr "Could not create appointment");
                  ("error", VStr (error_message putError));
                  ("code", error_code putError);
                  ("time", VStr time);
                  ("tableName", VStr (TABLE_NAME e));
                  ("params", VStr (JSON_stringify e params))])).
Proof.
  intros Hhandler Hstatus.
  destruct (handler_paths e o event w) as (r0 & w0 & Hhandler0 & Hpath).
  rewrite Hhandler in Hhandler0. injection Hhandler0 as <- <-.
  split.
  - destruct (handler_path_status e o event w r w' Hpath) as [[H _]|[_ H]].
    + contradiction.
    + exact H.
  - intros params Hin.
    destruct (handler_path_puts e o event w r w' Hpath params Hin) as [H|[H|H]].
    + now left.
    + contradiction.
    + now right.
Qed.

(** The sixth test of the suite: the put is rejected, the answer is 500 and
    the table stays empty. *)
Lemma failure_leaves_table_unchanged_witness :
  (table (snd (handler test_engine put_outage_oracle jane_event empty_world)) =
     table empty_world /\
   (forall params,
      In (PutCall params)
         (calls (snd (handler test_engine put_outage_oracle jane_event empty_world))) ->
      In (PutCall params) (calls empty_world) \/
      exists putError time,
        statusCode put_failure_answer = 500%Z /\
        headers put_failure_answer = [("Content-Type", "application/json")] /\
        body put_failure_answer =
          JSON_stringify test_engine
            (VObj [("message", VStr "Could not create appointment");
                   ("error", VStr (error_message putError));
                   ("code", error_code putError);
                   ("time", VStr time);
                   ("tableName", VStr (TABLE_NAME test_engine));
                   ("params", VStr (JSON_stringify test_engine params))]))) /\
  handler test_engine put_outage_oracle jane_event empty_world =
    (Fulfilled put_failure_answer,
     {| table := [];
        calls :=
          [QueryCall (getParams_of test_engine "Farrish Subaru#2025-04-20T15:30:00Z");
           PutCall
             (putParams_of test_engine
                (item_of jane "test-uuid-12345" "Farrish Subaru#2025-04-20T15:30:00Z"
                   "2025-04-01T12:00:00.000Z"))];
        ticks := 2 |}).
Proof.
  split; [|reflexivity].
  apply (failure_leaves_table_unchanged test_engine put_outage_oracle jane_event
           empty_world put_failure_answer
           (snd (handler test_engine put_outage_oracle jane_event empty_world))).
  - reflexivity.
  - discriminate.
Defined.

(** C7, as amended.  The handler leaves the table as it was or adds one
    item to it; the item it adds, as the client writes it, binds the five
    required fields to truthy values (so none of them is the empty string),
    [services] to a non-empty array and [appointmentTime] to a value that
    makes a valid date.  (That [fullName], [location] and [car] are strings
    is not checked.) *)
Theorem persisted_record_passed_validation (e : engine) (o : oracle) (event : value)
  (w : world) (r : response) (w' : world) :
  handler e o event w = (Fulfilled r, w') ->
  table w' = table w \/
  exists item,
    table w' = (table w ++ [item])%list /\
    (forall name, In name requiredFields -> ToBoolean (field item name) = true) /\
    (forall name, In name requiredFields -> field item name <> VStr "") /\
    (exists s ss, field item "services" = VArr (s :: ss)) /\
    Date_valid e (field item "appointmentTime") = Some true.
Proof.
  intros Hhandler.
  destruct (handler_paths e o event w) as (r0 & w0 & Hhandler0 & Hpath).
  rewrite Hhandler in Hhandler0. injection Hhandler0 as <- <-.
  destruct (handler_path_status e o event w r w' Hpath) as [[_ H]|[_ H]];
    [|now left].
  right. destruct H as (data & key & _ & Hvalidate & _ & _ & _ & _ & _ & Htable).
  apply validate_Normal in Hvalidate. destruct Hvalidate as (Hall & Hshape & Hdate).
  eexists. split; [exact Htable|].
  assert (Htruthy : forall name, In name requiredFields ->
            ToBoolean
              (field (convertEmptyValues
                        (item_of data (uuid_v4 o) key (toISOString o (ticks w)))) name)
            = true).
  { intros name Hin.
    rewrite (field_written_item data _ _ _ name Hin), ToBoolean_convertEmptyValues.
    now apply Hall. }
  split; [exact Htruthy|]. split.
  { intros name Hin Hempty. specialize (Htruthy name Hin).
    rewrite Hempty in Htruthy. discriminate Htruthy. }
  split.
  - rewrite (field_written_item data _ _ _ "services"); [|simpl; tauto].
    destruct Hshape as (s & ss & ->). cbn [convertEmptyValues map].
    now eexists _, _.
  - rewrite (field_written_item data _ _ _ "appointmentTime"); [|simpl; tauto].
    rewrite Date_valid_convertEmptyValues; [exact Hdate|].
    apply Hall. simpl. tauto.
Qed.

Lemma persisted_record_passed_validation_witness :
  table (snd (handler test_engine test_oracle jane_event empty_world)) =
    table empty_world \/
  exists item,
    table (snd (handler test_engine test_oracle jane_event empty_world)) =
      (table empty_world ++ [item])%list /\
    (forall name, In name requiredFields -> ToBoolean (field item name) = true) /\
    (forall name, In name requiredFields -> field item name <> VStr "") /\
    (exists s ss, field item "services" = VArr (s :: ss)) /\
    Date_valid test_engine (field item "appointmentTime") = Some true.
Proof.
  eapply (persisted_record_passed_validation test_engine test_oracle jane_event
            empty_world).
  reflexivity.
Defined.

(** C7 as stated fails on the request of the suite with the boolean [true]
    for [fullName]: the handler answers 200 and the one item of the table
    has [fullName] bound to [true], which is no string. *)
Lemma record_with_boolean_name_persisted :
  fst (handler test_engine test_oracle jane_named_true empty_world) =
    Fulfilled
      {| statusCode := 200;
         headers := [("Content-Type", "application/json")];
         body :=
           "{" ++ quoted "message" ++ ":" ++ quoted "Appointment created successfully" ++
           "," ++ quoted "appointmentId" ++ ":" ++ quoted "test-uuid-12345" ++
           "," ++ quoted "appointment" ++ ":" ++
           "{" ++ quoted "id" ++ ":" ++ quoted "test-uuid-12345" ++
           "," ++ quoted "fullName" ++ ":true" ++
           "," ++ quoted "location" ++ ":" ++ quoted "Farrish Subaru" ++
           "," ++ quoted "appointmentTime" ++ ":" ++ quoted "2025-04-20T15:30:00Z" ++
           "," ++ quoted "locationTimeKey" ++ ":" ++
           quoted "Farrish Subaru#2025-04-20T15:30:00Z" ++
           "," ++ quoted "car" ++ ":" ++ quoted "Subaru Outback" ++
           "," ++ quoted "services" ++ ":" ++
           "[" ++ quoted "Oil Change" ++ "," ++ quoted "Tire Rotation" ++ "]" ++
           "," ++ quoted "createdAt" ++ ":" ++ quoted "2025-04-01T12:00:00.000Z" ++
           "," ++ quoted "updatedAt" ++ ":" ++ quoted "2025-04-01T12:00:00.000Z" ++
           "}}" |} /\
  table (snd (handler test_engine test_oracle jane_named_true empty_world)) =
    [VObj [("id", VStr "test-uuid-12345");
           ("fullName", VBool true);
           ("location", VStr "Farrish Subaru");
           ("appointmentTime", VStr "2025-04-20T15:30:00Z");
           ("locationTimeKey", VStr "Farrish Subaru#2025-04-20T15:30:00Z");
           ("car", VStr "Subaru Outback");
           ("services", VArr [VStr "Oil Change"; VStr "Tire Rotation"]);
           ("createdAt", VStr "2025-04-01T12:00:00.000Z");
           ("updatedAt", VStr "2025-04-01T12:00:00.000Z")]] /\
  non_empty_string (VBool true) = false.
Proof. repeat split; reflexivity. Qed.

(** ** Two requests for one slot *)

Lemma created_item_is_booked (data : value) (id key timestamp : string) (w : world)
  (items : list value) :
  (key =? "") = false ->
  table w = (items ++ [convertEmptyValues (item_of data id key timestamp)])%list ->
  booked key w <> [].
Proof.
  intros Hkey H. unfold booked. rewrite H, filter_app. cbn [filter].
  rewrite (written_item_is_booked data id key timestamp Hkey).
  intros Hnil. apply app_eq_nil in Hnil.
  destruct Hnil as [_ Hnil]. discriminate Hnil.
Qed.

(** C3, as amended.  For two requests with the same [location] and
    [appointmentTime], processed one after the other, of which the first is
    answered 200: the second is not answered 200 and leaves the table as the
    first left it, so no further record is created; and when the second
    passes the validation and its query succeeds, it is answered 409 with
    the message "This appointment time is already booked at this
    location". *)
Theorem second_request_for_slot_creates_nothing (e : engine) (o1 o2 : oracle)
  (event1 event2 : value) (w : world) (data1 data2 : value)
  (r1 : response) (w1 : world) :
  decode e event1 = Normal data1 ->
  decode e event2 = Normal data2 ->
  field data2 "location" = field data1 "location" ->
  field data2 "appointmentTime" = field data1 "appointmentTime" ->
  handler e o1 event1 w = (Fulfilled r1, w1) ->
  statusCode r1 = 200%Z ->
  exists r2 w2,
    handler e o2 event2 w1 = (Fulfilled r2, w2) /\
    statusCode r2 <> 200%Z /\
    table w2 = table w1 /\
    (validate e data2 = Normal tt ->
     query_fault o2 = None ->
     statusCode r2 = 409%Z /\
     headers r2 = [("Content-Type", "application/json")] /\
     body r2 =
       JSON_stringify e
         (VObj [("message",
                 VStr "This appointment time is already booked at this location")])).
Proof.
  intros Hdecode1 Hdecode2 Hlocation Htime Hfirst Hstatus.
  destruct (handler_paths e o1 event1 w) as (r & w' & Hhandler & Hpath).
  rewrite Hfirst in Hhandler. injection Hhandler as <- <-.
  destruct (handler_path_status e o1 event1 w r1 w1 Hpath) as [[_ H]|[H _]].
  2:{ rewrite Hstatus in H. simpl in H.
      repeat (destruct H as [H|H]; [discriminate H|]). destruct H. }
  destruct H as (data & key & Hd & Hvalidate1 & Hkey1 & _ & _ & _ & _ & Htable).
  rewrite Hdecode1 in Hd. injection Hd as <-.
  pose proof (validate_Normal_not_nullish e data1 Hvalidate1) as Hdata1.
  pose proof (created_item_is_booked data1 _ key _ w1 (table w)
                (derive_key_not_empty e data1 key Hkey1) Htable) as Hbooked.
  assert (Hsame : validate e data2 = Normal tt -> derive_key e data2 = Normal key).
  { intros Hvalidate2. rewrite <- Hkey1.
    apply derive_key_same_slot; try assumption.
    exact (validate_Normal_not_nullish e data2 Hvalidate2). }
  destruct (handler_paths e o2 event2 w1) as (r2 & w2 & Hsecond & Hpath2).
  exists r2, w2. split; [exact Hsecond|].
  destruct (handler_path_status e o2 event2 w1 r2 w2 Hpath2) as [[_ H]|[Hstatus2 Htable2]].
  { exfalso. destruct H as (data & key2 & Hd & Hvalidate2 & Hkey2 & _ & Hfree & _).
    rewrite Hdecode2 in Hd. injection Hd as <-.
    rewrite (Hsame Hvalidate2) in Hkey2. injection Hkey2 as <-.
    exact (Hbooked Hfree). }
  split.
  { intros H200. rewrite H200 in Hstatus2. simpl in Hstatus2.
    repeat (destruct Hstatus2 as [Hstatus2|Hstatus2]; [discriminate Hstatus2|]).
    destruct Hstatus2. }
  split; [exact Htable2|].
  intros Hvalidate2 Hquery2.
  rewrite (handler_after_validation e o2 event2 w1 data2 key Hdecode2 Hvalidate2
             (Hsame Hvalidate2)) in Hsecond.
  rewrite (check_conflict_booked e o2 key w1 Hquery2 Hbooked) in Hsecond.
  injection Hsecond as <- _. now repeat split.
Qed.

(** The last scenario of the specification: the request of the suite, twice. *)
Lemma second_request_for_slot_creates_nothing_witness :
  (exists r2 w2,
     handler test_engine test_oracle jane_event
       (snd (handler test_engine test_oracle jane_event empty_world)) =
       (Fulfilled r2, w2) /\
     statusCode r2 <> 200%Z /\
     table w2 = table (snd (handler test_engine test_oracle jane_event empty_world)) /\
     (validate test_engine jane = Normal tt ->
      query_fault test_oracle = None ->
      statusCode r2 = 409%Z /\
      headers r2 = [("Content-Type", "application/json")] /\
      body r2 =
        JSON_stringify test_engine
          (VObj [("message",
                  VStr "This appointment time is already booked at this location")]))) /\
  statusCode (answer_of (fst (handler test_engine test_oracle jane_event empty_world)))
    = 200%Z /\
  fst (handler test_engine test_oracle jane_event
         (snd (handler test_engine test_oracle jane_event empty_world))) =
    Fulfilled
      {| statusCode := 409;
         headers := [("Content-Type", "application/json")];
         body := "{" ++ quoted "message" ++ ":" ++
                 quoted "This appointment time is already booked at this location" ++
                 "}" |} /\
  length (table (snd (handler test_engine test_oracle jane_event
                        (snd (handler test_engine test_oracle jane_event empty_world)))))
    = 1.
Proof.
  split; [|repeat split].
  apply (second_request_for_slot_creates_nothing test_engine test_oracle test_oracle
           jane_event jane_event empty_world jane jane
           (answer_of (fst (handler test_engine test_oracle jane_event empty_world)))
           (snd (handler test_engine test_oracle jane_event empty_world))).
  - reflexivity.
  - reflexivity.
  - reflexivity.
  - reflexivity.
  - reflexivity.
  - reflexivity.
Defined.

(** C3 as stated fails on a second request that does not pass the
    validation and on one whose query fails.  After the request of the suite
    is answered 200, the request for the same [location] and
    [appointmentTime] without [car] is answered 400, and the request of the
    suite itself is answered 500 when the store rejects the query. *)
Lemma second_request_not_always_conflict :
  statusCode (answer_of (fst (handler test_engine test_oracle jane_event empty_world)))
    = 200%Z /\
  field jane_without_car "location" = field jane "location" /\
  field jane_without_car "appointmentTime" = field jane "appointmentTime" /\
  fst (handler test_engine test_oracle jane_without_car
         (snd (handler test_engine test_oracle jane_event empty_world))) =
    Fulfilled
      {| statusCode := 400;
         headers := [("Content-Type", "application/json")];
         body := "{" ++ quoted "message" ++ ":" ++
                 quoted "Missing required field: car" ++ "}" |} /\
  statusCode
    (answer_of (fst (handler test_engine outage_oracle jane_event
                       (snd (handler test_engine test_oracle jane_event empty_world)))))
    = 500%Z.
Proof. repeat split; reflexivity. Qed.

(** ** Further paths *)



(** X2.  For every decoded payload that binds the five required fields to
    truthy values and [services] to a non-empty array, and whose
    [appointmentTime] makes an invalid date, the handler answers with the
    status 400 and a body that is the JSON text of the one message "Invalid
    date format for appointmentTime", and touches nothing. *)
Theorem invalid_date_answers_400 (e : engine) (o : oracle) (event : value)
  (w : world) (data : value) (s : value) (ss : list value) :
  decode e event = Normal data ->
  (forall name, In name requiredFields -> ToBoolean (field data name) = true) ->
  field data "services" = VArr (s :: ss) ->
  Date_valid e (field data "appointmentTime") = Some false ->
  exists r,
    handler e o event w = (Fulfilled r, w) /\
    statusCode r = 400%Z /\
    headers r = [("Content-Type", "application/json")] /\
    body r =
      JSON_stringify e
        (VObj [("message", VStr "Invalid date format for appointmentTime")]).
Proof.
  intros Hdecode Hall Hservices Hdate.
  exists (reply e 400 (message_only "Invalid date format for appointmentTime")).
  split; [|now repeat split].
  apply (handler_validate_Return e o event w data); [exact Hdecode|].
  assert (Hdata : nullish data = false).
  { apply (truthy_field_not_nullish data "services"). apply Hall. simpl. tauto. }
  unfold validate.
  rewrite (check_required_spec e data requiredFields Hdata).
  apply first_missing_None in Hall. rewrite Hall. cbn [Pure.bind].
  rewrite !(Get_field e data _ Hdata). cbn [Pure.bind].
  rewrite Hservices, Hdate. reflexivity.
Qed.

Lemma invalid_date_answers_400_witness :
  (exists r,
     handler test_engine test_oracle jane_next_tuesday empty_world =
       (Fulfilled r, empty_world) /\
     statusCode r = 400%Z /\
     headers r = [("Content-Type", "application/json")] /\
     body r =
       JSON_stringify test_engine
         (VObj [("message", VStr "Invalid date format for appointmentTime")])) /\
  fst (handler test_engine test_oracle jane_next_tuesday empty_world) =
    Fulfilled
      {| statusCode := 400;
         headers := [("Content-Type", "application/json")];
         body := "{" ++ quoted "message" ++ ":" ++
                 quoted "Invalid date format for appointmentTime" ++ "}" |}.
Proof.
  split; [|reflexivity].
  apply (invalid_date_answers_400 test_engine test_oracle _ empty_world
           jane_next_tuesday (VStr "Oil Change") []).
  - reflexivity.
  - intros name Hin. simpl in Hin.
    repeat (destruct Hin as [<-|Hin]; [reflexivity|]). destruct Hin.
  - reflexivity.
  - reflexivity.
Defined.

(** X3.  For every event whose [body] is a string that [JSON.parse]
    rejects, the handler answers with the status 400 and a body that is the
    JSON text of the one message "Invalid request body format", and touches
    nothing. *)
Theorem malformed_body_answers_400 (e : engine) (o : oracle) (w : world)
  (properties : list (string * value)) (text : string) :
  own "body" properties = Some (VStr text) ->
  text <> "" ->
  JSON_parse e text = None ->
  exists r,
    handler e o (VObj properties) w = (Fulfilled r, w) /\
    statusCode r = 400%Z /\
    headers r = [("Content-Type", "application/json")] /\
    body r = JSON_stringify e (VObj [("message", VStr "Invalid request body format")]).
Proof.
  intros Hbody Htext Hparse.
  exists (reply e 400 (message_only "Invalid request body format")).
  split; [|now repeat split].
  apply handler_decode_Return.
  unfold decode, Get, field. rewrite Hbody. cbn [Pure.bind ToBoolean].
  apply String.eqb_neq in Htext. rewrite Htext. cbn [negb].
  unfold JSON_parse_value. cbn [ToString or_TypeError Pure.bind].
  rewrite Hparse. reflexivity.
Qed.

Lemma malformed_body_answers_400_witness :
  (exists r,
     handler test_engine test_oracle (VObj [("body", VStr "{fullName:")]) empty_world =
       (Fulfilled r, empty_world) /\
     statusCode r = 400%Z /\
     headers r = [("Content-Type", "application/json")] /\
     body r =
       JSON_stringify test_engine
         (VObj [("message", VStr "Invalid request body format")])) /\
  fst (handler test_engine test_oracle (VObj [("body", VStr "{fullName:")]) empty_world) =
    Fulfilled
      {| statusCode := 400;
         headers := [("Content-Type", "application/json")];
         body := "{" ++ quoted "message" ++ ":" ++
                 quoted "Invalid request body format" ++ "}" |}.
Proof.
  split; [|reflexivity].
  apply (malformed_body_answers_400 test_engine test_oracle empty_world
           [("body", VStr "{fullName:")] "{fullName:").
  - reflexivity.
  - discriminate.
  - reflexivity.
Defined.

(** X4.  Every invocation that answers 200 answers with the appointment it
    has created: the body is the JSON text of the message, the id and the
    appointment; the [id] of the appointment is the [appointmentId] of the
    response and the id the generator gave, its [createdAt] and [updatedAt]
    are the same reading of the clock.  The table gains one item: that
    appointment as the client writes it, which is the appointment itself but
    for the empty strings nested in it, written as [null].  The index, which
    listed nothing under its [locationTimeKey], lists that item and no
    other. *)
Theorem created_answer_is_persisted_as_the_client_writes_it (e : engine) (o : oracle)
  (event : value) (w : world) (r : response) (w' : world) :
  handler e o event w = (Fulfilled r, w') ->
  statusCode r = 200%Z ->
  exists item key,
    headers r = [("Content-Type", "application/json")] /\
    body r =
      JSON_stringify e
        (VObj [("message", VStr "Appointment created successfully");
               ("appointmentId", VStr (uuid_v4 o));
               ("appointment", item)]) /\
    table w' = (table w ++ [convertEmptyValues item])%list /\
    field item "id" = VStr (uuid_v4 o) /\
    field (convertEmptyValues item) "id" = VStr (uuid_v4 o) /\
    field item "locationTimeKey" = VStr key /\
    field item "createdAt" = VStr (toISOString o (ticks w)) /\
    field item "updatedAt" = VStr (toISOString o (ticks w)) /\
    booked key w = [] /\
    booked key w' = [convertEmptyValues item].
Proof.
  intros Hhandler Hstatus.
  destruct (handler_paths e o event w) as (r0 & w0 & Hhandler0 & Hpath).
  rewrite Hhandler in Hhandler0. injection Hhandler0 as <- <-.
  destruct (handler_path_status e o event w r w' Hpath) as [[_ H]|[H _]].
  2:{ rewrite Hstatus in H. simpl in H.
      repeat (destruct H as [H|H]; [discriminate H|]). destruct H. }
  destruct H as (data & key & _ & Hvalidate & Hkey & _ & Hfree & Hput & -> & Htable).
  pose proof (derive_key_not_empty e data key Hkey) as Hnonempty.
  cbv zeta in Hput. apply put_rejection_None in Hput. destruct Hput as (_ & Hfits & _).
  apply validate_Normal in Hvalidate. destruct Hvalidate as (Hall & _).
  apply (written_item_fits_key_schema data _ key _ Hnonempty) in Hfits;
    [|apply Hall; simpl; tauto].
  destruct Hfits as [Hid _]. apply String.eqb_neq in Hid.
  eexists _, key. repeat (split; [reflexivity|]). split; [exact Htable|].
  split; [reflexivity|].
  split.
  { rewrite field_convertEmptyValues.
    change (field (item_of data (uuid_v4 o) key (toISOString o (ticks w))) "id")
      with (VStr (uuid_v4 o)).
    cbn [convertEmptyValues]. now rewrite Hid. }
  repeat (split; [reflexivity|]). split; [exact Hfree|].
  unfold booked in *. rewrite Htable, filter_app, Hfree. cbn [filter app].
  now rewrite written_item_is_booked.
Qed.

Lemma created_answer_is_persisted_as_the_client_writes_it_witness :
  exists item key,
    headers (answer_of (fst (handler test_engine test_oracle jane_event empty_world))) =
      [("Content-Type", "application/json")] /\
    body (answer_of (fst (handler test_engine test_oracle jane_event empty_world))) =
      JSON_stringify test_engine
        (VObj [("message", VStr "Appointment created successfully");
               ("appointmentId", VStr (uuid_v4 test_oracle));
               ("appointment", item)]) /\
    table (snd (handler test_engine test_oracle jane_event empty_world)) =
      (table empty_world ++ [convertEmptyValues item])%list /\
    field item "id" = VStr (uuid_v4 test_oracle) /\
    field (convertEmptyValues item) "id" = VStr (uuid_v4 test_oracle) /\
    field item "locationTimeKey" = VStr key /\
    field item "createdAt" = VStr (toISOString test_oracle (ticks empty_world)) /\
    field item "updatedAt" = VStr (toISOString test_oracle (ticks empty_world)) /\
    booked key empty_world = [] /\
    booked key (snd (handler test_engine test_oracle jane_event empty_world)) =
      [convertEmptyValues item].
Proof.
  apply (created_answer_is_persisted_as_the_client_writes_it test_engine test_oracle
           jane_event empty_world
           (answer_of (fst (handler test_engine test_oracle jane_event empty_world)))
           (snd (handler test_engine test_oracle jane_event empty_world))).
  - reflexivity.
  - reflexivity.
Defined.

(** The appointment of the answer and the item of the table differ when the
    payload nests an empty string: for [services: ['']] the answer has the
    array of the empty string and the table the array of [null]. *)
Lemma nested_empty_string_is_stored_as_null :
  fst (handler test_engine test_oracle jane_unnamed_service empty_world) =
    Fulfilled
      {| statusCode := 200;
         headers := [("Content-Type", "application/json")];
         body :=
           "{" ++ quoted "message" ++ ":" ++ quoted "Appointment created successfully" ++
           "," ++ quoted "appointmentId" ++ ":" ++ quoted "test-uuid-12345" ++
           "," ++ quoted "appointment" ++ ":" ++
           "{" ++ quoted "id" ++ ":" ++ quoted "test-uuid-12345" ++
           "," ++ quoted "fullName" ++ ":" ++ quoted "Jane Doe" ++
           "," ++ quoted "location" ++ ":" ++ quoted "Farrish Subaru" ++
           "," ++ quoted "appointmentTime" ++ ":" ++ quoted "2025-04-20T15:30:00Z" ++
           "," ++ quoted "locationTimeKey" ++ ":" ++
           quoted "Farrish Subaru#2025-04-20T15:30:00Z" ++
           "," ++ quoted "car" ++ ":" ++ quoted "Subaru Outback" ++
           "," ++ quoted "services" ++ ":" ++ "[" ++ quoted "" ++ "]" ++
           "," ++ quoted "createdAt" ++ ":" ++ quoted "2025-04-01T12:00:00.000Z" ++
           "," ++ quoted "updatedAt" ++ ":" ++ quoted "2025-04-01T12:00:00.000Z" ++
           "}}" |} /\
  map (fun item => field item "services")
    (table (snd (handler test_engine test_oracle jane_unnamed_service empty_world))) =
    [VArr [VNull]].
Proof. split; reflexivity. Qed.

(** ** The scenario of the specification, and the invariants of the table *)

(** X5.  The scenario of the specification, for every engine that parses
    the timestamp of the suite, every store that answers and every generated
    id that is not empty: the request of the suite against an empty table is
    answered 200, with [locationTimeKey]
    "Farrish Subaru#2025-04-20T15:30:00Z"; the same request repeated on the
    table it left is answered 409 with the message "This appointment time is
    already booked at this location", and the table stays as it was. *)
Theorem jane_doe_scenario (e : engine) (o1 o2 : oracle) :
  Date_parse e "2025-04-20T15:30:00Z" <> None ->
  query_fault o1 = None ->
  put_fault o1 = None ->
  uuid_v4 o1 <> "" ->
  query_fault o2 = None ->
  exists r1 item w1 r2 w2,
    handler e o1 jane empty_world = (Fulfilled r1, w1) /\
    statusCode r1 = 200%Z /\
    headers r1 = [("Content-Type", "application/json")] /\
    body r1 =
      JSON_stringify e
        (VObj [("message", VStr "Appointment created successfully");
               ("appointmentId", VStr (uuid_v4 o1));
               ("appointment", item)]) /\
    field item "locationTimeKey" = VStr "Farrish Subaru#2025-04-20T15:30:00Z" /\
    handler e o2 jane w1 = (Fulfilled r2, w2) /\
    statusCode r2 = 409%Z /\
    headers r2 = [("Content-Type", "application/json")] /\
    body r2 =
      JSON_stringify e
        (VObj [("message",
                VStr "This appointment time is already booked at this location")]) /\
    table w2 = table w1.
Proof.
  intros Hdate Hquery1 Hput1 Hid Hquery2.
  assert (Hdecode : decode e jane = Normal jane) by reflexivity.
  assert (Hvalidate : validate e jane = Normal tt).
  { apply validate_Normal. split.
    - intros name Hin. simpl in Hin.
      repeat (destruct Hin as [<-|Hin]; [reflexivity|]). destruct Hin.
    - split; [now eexists _, _|].
      cbn. destruct (Date_parse e "2025-04-20T15:30:00Z"); [reflexivity|].
      now destruct Hdate. }
  assert (Hkey : derive_key e jane = Normal "Farrish Subaru#2025-04-20T15:30:00Z")
    by reflexivity.
  rewrite (handler_after_validation e o1 jane empty_world jane _
             Hdecode Hvalidate Hkey).
  rewrite (check_conflict_free e o1 _ empty_world Hquery1 eq_refl). cbv zeta.
  erewrite write_item_accepted.
  2:{ apply put_rejection_None. split; [exact Hput1|]. split; [|reflexivity].
      apply written_item_fits_key_schema; [reflexivity|reflexivity|].
      split; [exact Hid|now eexists]. }
  eexists _, _, _, _, _. split; [reflexivity|].
  repeat (split; [reflexivity|]).
  rewrite (handler_after_validation e o2 jane _ jane _ Hdecode Hvalidate Hkey).
  rewrite (check_conflict_booked e o2 _ _ Hquery2) by discriminate.
  repeat split.
Qed.

Lemma jane_doe_scenario_witness :
  exists r1 item w1 r2 w2,
    handler test_engine test_oracle jane empty_world = (Fulfilled r1, w1) /\
    statusCode r1 = 200%Z /\
    headers r1 = [("Content-Type", "application/json")] /\
    body r1 =
      JSON_stringify test_engine
        (VObj [("message", VStr "Appointment created successfully");
               ("appointmentId", VStr (uuid_v4 test_oracle));
               ("appointment", item)]) /\
    field item "locationTimeKey" = VStr "Farrish Subaru#2025-04-20T15:30:00Z" /\
    handler test_engine test_oracle jane w1 = (Fulfilled r2, w2) /\
    statusCode r2 = 409%Z /\
    headers r2 = [("Content-Type", "application/json")] /\
    body r2 =
      JSON_stringify test_engine
        (VObj [("message",
                VStr "This appointment time is already booked at this location")]) /\
    table w2 = table w1.
Proof.
  apply (jane_doe_scenario test_engine test_oracle test_oracle).
  - discriminate.
  - reflexivity.
  - reflexivity.
  - discriminate.
  - reflexivity.
Defined.

Lemma slot_keys_app (items more : list value) :
  slot_keys (items ++ more) = (slot_keys items ++ slot_keys more)%list.
Proof. unfold slot_keys. apply flat_map_app. Qed.

Lemma item_ids_app (items more : list value) :
  item_ids (items ++ more) = (item_ids items ++ item_ids more)%list.
Proof. unfold item_ids. apply flat_map_app. Qed.

(** The index lists nothing under a key exactly when the key is not a key
    of the table. *)
Lemma filter_locationTimeKey_nil (key : string) (items : list value) :
  filter (has_locationTimeKey key) items = [] -> ~ In key (slot_keys items).
Proof.
  induction items as [|item rest IH]; [intros _ []|].
  cbn [filter]. unfold slot_keys. cbn [flat_map]. fold (slot_keys rest).
  unfold has_locationTimeKey at 1.
  destruct (field item "locationTimeKey") as [| |b|x|k|l|ps]; cbn [app]; try exact IH.
  destruct (k =? key) eqn:E; [discriminate|].
  intros Hrest [Hin|Hin].
  - subst k. rewrite String.eqb_refl in E. discriminate E.
  - exact (IH Hrest Hin).
Qed.

Lemma existsb_has_id_false (id : string) (items : list value) :
  existsb (has_id (VStr id)) items = false -> ~ In id (item_ids items).
Proof.
  induction items as [|item rest IH]; [intros _ []|].
  cbn [existsb]. unfold item_ids. cbn [flat_map]. fold (item_ids rest).
  unfold has_id at 1.
  destruct (field item "id") as [| |b|x|j|l|ps]; cbn [app orb]; try exact IH.
  destruct (j =? id) eqn:E; [discriminate|]. cbn [orb].
  intros Hrest [Hin|Hin].
  - subst j. rewrite String.eqb_refl in E. discriminate E.
  - exact (IH Hrest Hin).
Qed.

Lemma NoDup_snoc (x : string) (l : list string) :
  NoDup l -> ~ In x l -> NoDup (l ++ [x]).
Proof.
  intros Hl Hx. induction Hl as [|y l Hy Hl IH]; cbn [app].
  - constructor; [intros []|constructor].
  - constructor.
    + intros Hin. apply in_app_or in Hin. destruct Hin as [Hin|[->|[]]].
      * exact (Hy Hin).
      * apply Hx. now left.
    + apply IH. intros Hin. apply Hx. now right.
Qed.

(** One invocation keeps the keys of the table distinct, and its ids. *)
Lemma handler_keeps_keys_distinct (e : engine) (o : oracle) (event : value)
  (w : world) :
  NoDup (slot_keys (table w)) /\ NoDup (item_ids (table w)) ->
  NoDup (slot_keys (table (snd (handler e o event w)))) /\
  NoDup (item_ids (table (snd (handler e o event w)))).
Proof.
  intros [Hkeys Hids].
  destruct (handler_paths e o event w) as (r & w' & Hhandler & Hpath).
  rewrite Hhandler. cbn [snd].
  destruct (handler_path_status e o event w r w' Hpath) as [[_ H]|[_ H]].
  2:{ rewrite H. now split. }
  destruct H as (data & key & _ & _ & Hkey & _ & Hfree & Hput & _ & Htable).
  cbv zeta in Hput. rewrite Htable, slot_keys_app, item_ids_app.
  pose proof (derive_key_not_empty e data key Hkey) as Hnonempty.
  set (item := item_of data (uuid_v4 o) key (toISOString o (ticks w))) in *.
  split.
  - assert (E : slot_keys [convertEmptyValues item] = [key]).
    { unfold slot_keys. cbn [flat_map]. rewrite field_convertEmptyValues.
      change (field item "locationTimeKey") with (VStr key).
      cbn [convertEmptyValues]. now rewrite Hnonempty. }
    rewrite E. apply NoDup_snoc; [exact Hkeys|].
    now apply filter_locationTimeKey_nil.
  - apply put_rejection_None in Hput. destruct Hput as (_ & _ & Hput).
    rewrite field_convertEmptyValues in Hput.
    change (field item "id") with (VStr (uuid_v4 o)) in Hput.
    unfold item_ids at 2. cbn [flat_map]. rewrite field_convertEmptyValues.
    change (field item "id") with (VStr (uuid_v4 o)).
    cbn [convertEmptyValues] in *.
    destruct (uuid_v4 o =? ""); cbn [app]; [now rewrite app_nil_r|].
    apply NoDup_snoc; [exact Hids|].
    now apply existsb_has_id_false.
Qed.

(** X6.  Served one after the other, the invocations keep the
    [locationTimeKey]s of the table pairwise distinct, and its [id]s:
    whatever the events, the generated ids and the faults of the store, a
    table whose keys and ids are distinct is left with distinct keys and
    ids. *)
Theorem sequential_invocations_keep_keys_distinct (e : engine)
  (requests : list (oracle * value)) (w : world) :
  NoDup (slot_keys (table w)) /\ NoDup (item_ids (table w)) ->
  NoDup (slot_keys (table (snd (serve e requests w)))) /\
  NoDup (item_ids (table (snd (serve e requests w)))).
Proof.
  revert w. induction requests as [|[o event] rest IH]; intros w H; [exact H|].
  cbn [serve].
  pose proof (handler_keeps_keys_distinct e o event w H) as Hstep.
  destruct (handler e o event w) as [answer w1]. cbn [snd] in Hstep.
  specialize (IH w1 Hstep).
  destruct (serve e rest w1) as [answers w2]. exact IH.
Qed.

(** The request of the suite three times, then the request with the boolean
    name: one record. *)
Lemma sequential_invocations_keep_keys_distinct_witness :
  length (table (snd (serve test_engine
                        [(test_oracle, jane_event); (test_oracle, jane_event);
                         (test_oracle, jane); (test_oracle, jane_named_true)]
                        empty_world))) = 1 /\
  NoDup (slot_keys (table (snd (serve test_engine
                                  [(test_oracle, jane_event); (test_oracle, jane_event);
                                   (test_oracle, jane); (test_oracle, jane_named_true)]
                                  empty_world)))) /\
  NoDup (item_ids (table (snd (serve test_engine
                                 [(test_oracle, jane_event); (test_oracle, jane_event);
                                  (test_oracle, jane); (test_oracle, jane_named_true)]
                                 empty_world)))).
Proof.
  split; [reflexivity|].
  apply (sequential_invocations_keep_keys_distinct test_engine
           [(test_oracle, jane_event); (test_oracle, jane_event);
            (test_oracle, jane); (test_oracle, jane_named_true)] empty_world).
  split; constructor.
Defined.

(** ** What one invocation does to the store and to the clock *)

(** X7.  An invocation calls the store not at all, once for the query, or
    once for the query and then once for the put of an item that carries
    the key of that query: never a put without the query before it, never a
    second query or a second put.  It reads the clock at most twice. *)
Theorem one_query_then_at_most_one_put (e : engine) (o : oracle) (event : value)
  (w : world) :
  exists made reads,
    calls (snd (handler e o event w)) = (calls w ++ made)%list /\
    (made = [] \/
     (exists key, made = [QueryCall (getParams_of e key)]) \/
     (exists key item,
        made = [QueryCall (getParams_of e key); PutCall (putParams_of e item)] /\
        field item "locationTimeKey" = VStr key)) /\
    ticks (snd (handler e o event w)) = reads + ticks w /\
    reads <= 2.
Proof.
  destruct (handler_paths e o event w) as (r & w' & Hhandler & Hpath).
  rewrite Hhandler. cbn [snd].
  destruct Hpath as [err H|r H|data r H1 H2|data err H1 H2|data err H1 H2 H3
                    |data key err H1 H2 H3 H4|data key H1 H2 H3 H4 H5
                    |data key err H1 H2 H3 H4 H5 item H6
                    |data key H1 H2 H3 H4 H5 item H6].
  - exists [], 1. rewrite app_nil_r. repeat split; auto.
  - exists [], 0. rewrite app_nil_r. repeat split; auto.
  - exists [], 0. rewrite app_nil_r. repeat split; auto.
  - exists [], 1. rewrite app_nil_r. repeat split; auto.
  - exists [], 1. rewrite app_nil_r. repeat split; auto.
  - exists [QueryCall (getParams_of e key)], 1.
    split; [reflexivity|]. split; [right; left; now exists key|]. split; auto.
  - exists [QueryCall (getParams_of e key)], 0.
    split; [reflexivity|]. split; [right; left; now exists key|]. split; auto.
  - exists [QueryCall (getParams_of e key); PutCall (putParams_of e item)], 2.
    split; [cbn [calls tick log_call]; now rewrite <- app_assoc|].
    split; [right; right; now exists key, item|]. split; auto.
  - exists [QueryCall (getParams_of e key); PutCall (putParams_of e item)], 1.
    split; [cbn [calls tick log_call put_item]; now rewrite <- app_assoc|].
    split; [right; right; now exists key, item|]. split; auto.
Qed.

(** X8.  An answer 400 depends on the event and the engine only: the
    invocation has called neither the store nor the clock, and the same
    event is answered with the same response whatever the table, the faults
    of the store, the generated id and the time. *)
Theorem client_error_is_independent_of_the_store (e : engine) (o1 o2 : oracle)
  (event : value) (w1 w2 : world) (r : response) (w' : world) :
  handler e o1 event w1 = (Fulfilled r, w') ->
  statusCode r = 400%Z ->
  w' = w1 /\ handler e o2 event w2 = (Fulfilled r, w2).
Proof.
  intros Hhandler Hstatus.
  destruct (handler_paths e o1 event w1) as (r0 & w0 & Hhandler0 & Hpath).
  rewrite Hhandler in Hhandler0. injection Hhandler0 as <- <-.
  destruct Hpath as [err H|r H|data r H1 H2|data err H1 H2|data err H1 H2 H3
                    |data key err H1 H2 H3 H4|data key H1 H2 H3 H4 H5
                    |data key err H1 H2 H3 H4 H5 item H6
                    |data key H1 H2 H3 H4 H5 item H6];
    try discriminate Hstatus.
  - split; [reflexivity|]. now apply handler_decode_Return.
  - split; [reflexivity|]. now apply (handler_validate_Return e o2 event w2 data).
Qed.

(** The third test of the suite, against the empty table with a store that
    answers and against a booked table with a store that rejects the put. *)
Lemma client_error_is_independent_of_the_store_witness :
  empty_world = empty_world /\
  handler test_engine put_outage_oracle oil_change_only booked_world =
    (Fulfilled
       {| statusCode := 400;
          headers := [("Content-Type", "application/json")];
          body := "{" ++ quoted "message" ++ ":" ++
                  quoted "Services must be a non-empty array" ++ "}" |},
     booked_world).
Proof.
  apply (client_error_is_independent_of_the_store test_engine test_oracle
           put_outage_oracle oil_change_only empty_world booked_world
           {| statusCode := 400;
              headers := [("Content-Type", "application/json")];
              body := "{" ++ quoted "message" ++ ":" ++
                      quoted "Services must be a non-empty array" ++ "}" |}
           empty_world).
  - reflexivity.
  - reflexivity.
Defined.

(** X9.  The handler answers 409 only for a slot that is taken: the payload
    has passed the validation, the query has succeeded, and the table holds
    an item whose [locationTimeKey] is the key derived from the payload.
    The answer is the fixed conflict response and the table is unchanged. *)
Theorem conflict_answer_names_a_booked_slot (e : engine) (o : oracle)
  (event : value) (w : world) (r : response) (w' : world) :
  handler e o event w = (Fulfilled r, w') ->
  statusCode r = 409%Z ->
  exists data key item,
    decode e event = Normal data /\
    validate e data = Normal tt /\
    derive_key e data = Normal key /\
    query_fault o = None /\
    In item (table w) /\
    field item "locationTimeKey" = VStr key /\
    headers r = [("Content-Type", "application/json")] /\
    body r =
      JSON_stringify e
        (VObj [("message",
                VStr "This appointment time is already booked at this location")]) /\
    table w' = table w.
Proof.
  intros Hhandler Hstatus.
  destruct (handler_paths e o event w) as (r0 & w0 & Hhandler0 & Hpath).
  rewrite Hhandler in Hhandler0. injection Hhandler0 as <- <-.
  destruct Hpath as [err H|r H|data r H1 H2|data err H1 H2|data err H1 H2 H3
                    |data key err H1 H2 H3 H4|data key H1 H2 H3 H4 H5
                    |data key err H1 H2 H3 H4 H5 item H6
                    |data key H1 H2 H3 H4 H5 item H6];
    try discriminate Hstatus.
  - rewrite (decode_Return e event r H) in Hstatus. discriminate Hstatus.
  - destruct (validate_Return e data r H2) as [text ->]. discriminate Hstatus.
  - destruct (booked key w) as [|item rest] eqn:Hbooked; [now destruct H5|].
    assert (Hin : In item (booked key w)) by (rewrite Hbooked; now left).
    unfold booked in Hin. apply filter_In in Hin. destruct Hin as [Hin Hkey].
    exists data, key, item. repeat split; try assumption.
    unfold has_locationTimeKey in Hkey.
    destruct (field item "locationTimeKey"); try discriminate Hkey.
    apply String.eqb_eq in Hkey. now subst.
Qed.

Lemma conflict_answer_names_a_booked_slot_witness :
  exists data key item,
    decode test_engine jane_event = Normal data /\
    validate test_engine data = Normal tt /\
    derive_key test_engine data = Normal key /\
    query_fault test_oracle = None /\
    In item (table booked_world) /\
    field item "locationTimeKey" = VStr key /\
    headers (answer_of (fst (handler test_engine test_oracle jane_event booked_world))) =
      [("Content-Type", "application/json")] /\
    body (answer_of (fst (handler test_engine test_oracle jane_event booked_world))) =
      JSON_stringify test_engine
        (VObj [("message",
                VStr "This appointment time is already booked at this location")]) /\
    table (snd (handler test_engine test_oracle jane_event booked_world)) =
      table booked_world.
Proof.
  apply (conflict_answer_names_a_booked_slot test_engine test_oracle jane_event
           booked_world
           (answer_of (fst (handler test_engine test_oracle jane_event booked_world)))
           (snd (handler test_engine test_oracle jane_event booked_world))).
  - reflexivity.
  - reflexivity.
Defined.

(** ** When the handler answers 500 *)




Lemma no_item_has_no_id (id : value) (items : list value) :
  (forall s, id <> VStr s) -> existsb (has_id id) items = false.
Proof.
  intros H. induction items as [|item rest IH]; [reflexivity|].
  cbn [existsb]. rewrite IH. unfold has_id.
  destruct id; try reflexivity. now destruct (H s).
Qed.



(** ** The key of a slot *)

Lemma key_text_injective (l1 t1 l2 t2 : string) :
  has_hash l1 = false -> has_hash l2 = false ->
  l1 ++ "#" ++ t1 = l2 ++ "#" ++ t2 ->
  l1 = l2 /\ t1 = t2.
Proof.
  revert l2. induction l1 as [|c1 l1 IH]; intros [|c2 l2] H1 H2 Heq.
  - cbn in Heq. injection Heq as ->. now split.
  - cbn in Heq. injection Heq as <- _. cbn in H2. discriminate H2.
  - cbn in Heq. injection Heq as -> _. cbn in H1. discriminate H1.
  - cbn [append] in Heq. injection Heq as -> Heq.
    cbn [has_hash] in H1, H2.
    apply orb_false_iff in H1. apply orb_false_iff in H2.
    destruct (IH l2 (proj2 H1) (proj2 H2) Heq) as [-> ->]. now split.
Qed.

(** X11.  The key tells the slots apart as long as no [location] holds a
    [#]: two payloads whose [location] and [appointmentTime] are strings,
    the locations without [#], have the same key only if they have the same
    [location] and the same [appointmentTime]. *)
Theorem key_determines_slot_without_hash (e : engine) (data1 data2 : value)
  (location1 time1 location2 time2 : string) :
  field data1 "location" = VStr location1 ->
  field data1 "appointmentTime" = VStr time1 ->
  field data2 "location" = VStr location2 ->
  field data2 "appointmentTime" = VStr time2 ->
  has_hash location1 = false ->
  has_hash location2 = false ->
  derive_key e data1 = derive_key e data2 ->
  location1 = location2 /\ time1 = time2.
Proof.
  intros Hl1 Ht1 Hl2 Ht2 Hh1 Hh2 Hkey.
  assert (Hd1 : nullish data1 = false)
    by (destruct data1; try discriminate Hl1; reflexivity).
  assert (Hd2 : nullish data2 = false)
    by (destruct data2; try discriminate Hl2; reflexivity).
  unfold derive_key in Hkey.
  rewrite !(Get_field e data1 _ Hd1), !(Get_field e data2 _ Hd2) in Hkey.
  rewrite Hl1, Ht1, Hl2, Ht2 in Hkey. cbn in Hkey. injection Hkey as Hkey.
  exact (key_text_injective _ _ _ _ Hh1 Hh2 Hkey).
Qed.

Lemma key_determines_slot_without_hash_witness :
  "Farrish Subaru" = "Farrish Subaru" /\
  "2025-04-20T15:30:00Z" = "2025-04-20T15:30:00Z".
Proof.
  apply (key_determines_slot_without_hash test_engine jane jane_without_car
           "Farrish Subaru" "2025-04-20T15:30:00Z"
           "Farrish Subaru" "2025-04-20T15:30:00Z");
    reflexivity.
Defined.

Lemma append_associative (a b c : string) : (a ++ b) ++ c = a ++ (b ++ c).
Proof. induction a as [|x a IH]; cbn; [reflexivity|now rewrite IH]. Qed.

(** A [#] in a [location] moves the border between the two parts of the
    key: the slots [(a#b, c)] and [(a, b#c)] have one key. *)
Lemma key_with_hash_in_location (e : engine) (a b c : string) :
  derive_key e (VObj [("location", VStr (a ++ "#" ++ b)); ("appointmentTime", VStr c)]) =
  derive_key e (VObj [("location", VStr a); ("appointmentTime", VStr (b ++ "#" ++ c))]).
Proof.
  cbn [derive_key Get field own String.eqb Ascii.eqb Bool.eqb Pure.bind or_TypeError
       ToString].
  f_equal. now rewrite append_associative.
Qed.

(** X12.  The conflict check compares keys, not slots: once a request is
    answered 200, any later request that passes the validation, whose query
    succeeds and whose key is the same text, is answered 409 and creates
    nothing, also when its [location] or [appointmentTime] is a different
    value (an array of one string and that string, a number and its decimal
    text, or a [#] moved from the one to the other). *)
Theorem same_key_is_a_conflict (e : engine) (o1 o2 : oracle)
  (event1 event2 : value) (w : world) (data1 data2 : value)
  (r1 : response) (w1 : world) :
  decode e event1 = Normal data1 ->
  decode e event2 = Normal data2 ->
  handler e o1 event1 w = (Fulfilled r1, w1) ->
  statusCode r1 = 200%Z ->
  validate e data2 = Normal tt ->
  derive_key e data2 = derive_key e data1 ->
  query_fault o2 = None ->
  exists r2 w2,
    handler e o2 event2 w1 = (Fulfilled r2, w2) /\
    statusCode r2 = 409%Z /\
    headers r2 = [("Content-Type", "application/json")] /\
    body r2 =
      JSON_stringify e
        (VObj [("message",
                VStr "This appointment time is already booked at this location")]) /\
    table w2 = table w1.
Proof.
  intros Hdecode1 Hdecode2 Hfirst Hstatus Hvalidate2 Hsame Hquery2.
  destruct (handler_paths e o1 event1 w) as (r & w' & Hhandler & Hpath).
  rewrite Hfirst in Hhandler. injection Hhandler as <- <-.
  destruct (handler_path_status e o1 event1 w r1 w1 Hpath) as [[_ H]|[H _]].
  2:{ rewrite Hstatus in H. simpl in H.
      repeat (destruct H as [H|H]; [discriminate H|]). destruct H. }
  destruct H as (data & key & Hd & _ & Hkey1 & _ & _ & _ & _ & Htable).
  rewrite Hdecode1 in Hd. injection Hd as <-.
  pose proof (created_item_is_booked data1 _ key _ w1 (table w)
                (derive_key_not_empty e data1 key Hkey1) Htable) as Hbooked.
  rewrite Hkey1 in Hsame.
  rewrite (handler_after_validation e o2 event2 w1 data2 key Hdecode2 Hvalidate2 Hsame).
  rewrite (check_conflict_booked e o2 key w1 Hquery2 Hbooked).
  eexists _, _. repeat split.
Qed.

(** The request of the suite, then the same request with the location as an
    array of one string. *)
Lemma same_key_is_a_conflict_witness :
  (exists r2 w2,
     handler test_engine test_oracle jane_location_array
       (snd (handler test_engine test_oracle jane_event empty_world)) =
       (Fulfilled r2, w2) /\
     statusCode r2 = 409%Z /\
     headers r2 = [("Content-Type", "application/json")] /\
     body r2 =
       JSON_stringify test_engine
         (VObj [("message",
                 VStr "This appointment time is already booked at this location")]) /\
     table w2 = table (snd (handler test_engine test_oracle jane_event empty_world))) /\
  fst (handler test_engine test_oracle jane_location_array
         (snd (handler test_engine test_oracle jane_event empty_world))) =
    Fulfilled
      {| statusCode := 409;
         headers := [("Content-Type", "application/json")];
         body := "{" ++ quoted "message" ++ ":" ++
                 quoted "This appointment time is already booked at this location" ++
                 "}" |}.
Proof.
  split; [|reflexivity].
  apply (same_key_is_a_conflict test_engine test_oracle test_oracle
           jane_event jane_location_array empty_world jane jane_location_array
           (answer_of (fst (handler test_engine test_oracle jane_event empty_world)))
           (snd (handler test_engine test_oracle jane_event empty_world)));
    reflexivity.
Defined.

(** ** The two ways in *)

Lemma handler_depends_on_payload (e : engine) (o : oracle) (event1 event2 : value)
  (w : world) :
  decode e event1 = decode e event2 ->
  handler e o event1 w = handler e o event2 w.
Proof.
  intros H. unfold handler, try_catch, handler_try, bind, lift. now rewrite H.
Qed.

(** X13.  An event of the gateway and the direct invocation with its
    payload are answered alike: when the [body] of the event is a text
    that parses to a payload which is not [null] and has no truthy [body]
    of its own, the handler answers the event as it answers that payload,
    and leaves the same world. *)
Theorem body_event_is_answered_as_its_payload (e : engine) (o : oracle) (w : world)
  (properties : list (string * value)) (text : string) (data : value) :
  own "body" properties = Some (VStr text) ->
  text <> "" ->
  JSON_parse e text = Some data ->
  nullish data = false ->
  ToBoolean (field data "body") = false ->
  handler e o (VObj properties) w = handler e o data w.
Proof.
  intros Hbody Htext Hparse Hdata Hnobody.
  apply handler_depends_on_payload.
  unfold decode. rewrite (Get_field e data "body" Hdata).
  cbn [Get field Pure.bind]. rewrite Hbody, Hnobody. cbn [ToBoolean].
  apply String.eqb_neq in Htext. rewrite Htext. cbn [negb].
  unfold JSON_parse_value. cbn [ToString or_TypeError Pure.bind].
  rewrite Hparse. reflexivity.
Qed.

Lemma body_event_is_answered_as_its_payload_witness :
  handler test_engine test_oracle jane_event booked_world =
  handler test_engine test_oracle jane booked_world.
Proof.
  apply (body_event_is_answered_as_its_payload test_engine test_oracle booked_world
           [("body", VStr jane_body)] jane_body jane).
  - reflexivity.
  - discriminate.
  - reflexivity.
  - reflexivity.
  - reflexivity.
Defined.

(** ** The record *)

(** X14.  The record of an answer 200 has nine properties and no other:
    the generated [id], the five required fields as the payload has them,
    the [locationTimeKey] made of the texts of [location] and
    [appointmentTime], and the two timestamps.  Whatever else the payload
    holds (an [id], a [locationTimeKey], a [createdAt] of its own, any
    other property) reaches neither the response nor the table. *)
Theorem created_record_has_nine_fields (e : engine) (o : oracle) (event : value)
  (w : world) (r : response) (w' : world) :
  handler e o event w = (Fulfilled r, w') ->
  statusCode r = 200%Z ->
  exists data location time,
    decode e event = Normal data /\
    ToString e (field data "location") = Some location /\
    ToString e (field data "appointmentTime") = Some time /\
    let record :=
      VObj [("id", VStr (uuid_v4 o));
            ("fullName", field data "fullName");
            ("location", field data "location");
            ("appointmentTime", field data "appointmentTime");
            ("locationTimeKey", VStr (location ++ "#" ++ time));
            ("car", field data "car");
            ("services", field data "services");
            ("createdAt", VStr (toISOString o (ticks w)));
            ("updatedAt", VStr (toISOString o (ticks w)))] in
    headers r = [("Content-Type", "application/json")] /\
    body r =
      JSON_stringify e
        (VObj [("message", VStr "Appointment created successfully");
               ("appointmentId", VStr (uuid_v4 o));
               ("appointment", record)]) /\
    table w' = (table w ++ [convertEmptyValues record])%list.
Proof.
  intros Hhandler Hstatus.
  destruct (handler_paths e o event w) as (r0 & w0 & Hhandler0 & Hpath).
  rewrite Hhandler in Hhandler0. injection Hhandler0 as <- <-.
  destruct (handler_path_status e o event w r w' Hpath) as [[_ H]|[H _]].
  2:{ rewrite Hstatus in H. simpl in H.
      repeat (destruct H as [H|H]; [discriminate H|]). destruct H. }
  destruct H as (data & key & Hdecode & Hvalidate & Hkey & _ & _ & _ & -> & Htable).
  pose proof (validate_Normal_not_nullish e data Hvalidate) as Hdata.
  apply (derive_key_Normal e data key Hdata) in Hkey.
  destruct Hkey as (location & time & Hlocation & Htime & ->).
  exists data, location, time. repeat split; assumption.
Qed.

(** A request that brings an [id] and a [locationTimeKey] of its own. *)
Lemma created_record_has_nine_fields_witness :
  exists data location time,
    decode test_engine jane_with_own_id = Normal data /\
    ToString test_engine (field data "location") = Some location /\
    ToString test_engine (field data "appointmentTime") = Some time /\
    let record :=
      VObj [("id", VStr (uuid_v4 test_oracle));
            ("fullName", field data "fullName");
            ("location", field data "location");
            ("appointmentTime", field data "appointmentTime");
            ("locationTimeKey", VStr (location ++ "#" ++ time));
            ("car", field data "car");
            ("services", field data "services");
            ("createdAt", VStr (toISOString test_oracle (ticks empty_world)));
            ("updatedAt", VStr (toISOString test_oracle (ticks empty_world)))] in
    headers
      (answer_of (fst (handler test_engine test_oracle jane_with_own_id empty_world))) =
      [("Content-Type", "application/json")] /\
    body
      (answer_of (fst (handler test_engine test_oracle jane_with_own_id empty_world))) =
      JSON_stringify test_engine
        (VObj [("message", VStr "Appointment created successfully");
               ("appointmentId", VStr (uuid_v4 test_oracle));
               ("appointment", record)]) /\
    table (snd (handler test_engine test_oracle jane_with_own_id empty_world)) =
      (table empty_world ++ [convertEmptyValues record])%list.
Proof.
  apply (created_record_has_nine_fields test_engine test_oracle jane_with_own_id
           empty_world
           (answer_of (fst (handler test_engine test_oracle jane_with_own_id empty_world)))
           (snd (handler test_engine test_oracle jane_with_own_id empty_world)));
    reflexivity.
Defined.

(** ** A run of invocations *)

(** X15.  Served one after the other, the invocations only add to the
    table, one record for each answer 200 and none for any other answer:
    the items the table held stay as they were and in their place, and
    every request gets its answer. *)
Theorem run_adds_one_record_per_created_answer (e : engine)
  (requests : list (oracle * value)) (w : world) :
  exists added,
    table (snd (serve e requests w)) = (table w ++ added)%list /\
    length added = created_count (fst (serve e requests w)) /\
    length (fst (serve e requests w)) = length requests.
Proof.
  revert w. induction requests as [|[o event] rest IH]; intros w.
  { exists []. cbn. now rewrite app_nil_r. }
  cbn [serve].
  destruct (handler_paths e o event w) as (r & w1 & Hhandler & Hpath).
  rewrite Hhandler.
  destruct (IH w1) as (added & Htable & Hcount & Hlength).
  destruct (serve e rest w1) as [answers w2]. cbn [fst snd] in *.
  unfold created_count in *. cbn [filter length].
  destruct (handler_path_status e o event w r w1 Hpath) as [[Hstatus H]|[Hstatus H]].
  - destruct H as (data & key & _ & _ & _ & _ & _ & _ & _ & Hadd).
    eexists (_ :: added). rewrite Htable, Hadd, <- app_assoc. cbn [app].
    split; [reflexivity|]. rewrite Hstatus. cbn [Z.eqb Pos.eqb length].
    split; congruence.
  - exists added. rewrite Htable, H. split; [reflexivity|].
    assert (Hnot : (statusCode r =? 200)%Z = false).
    { simpl in Hstatus.
      repeat (destruct Hstatus as [<-|Hstatus]; [reflexivity|]). destruct Hstatus. }
    rewrite Hnot. split; congruence.
Qed.

(** ** The configuration *)

(** X16.  Whatever the environment, the client is configured with a region
    that is not empty and with [convertEmptyValues: true]; it is pointed at
    the local instance exactly when [IS_OFFLINE] is set to a text that is
    not empty, whatever that text says (the text [false] included). *)
Theorem client_is_local_when_IS_OFFLINE_is_any_text (env : process_env) :
  (exists region,
     field (dynamoDbConfig env) "region" = VStr region /\ region <> "") /\
  field (dynamoDbConfig env) "convertEmptyValues" = VBool true /\
  ((exists text, IS_OFFLINE_variable env = Some text /\ text <> "") <->
   field (dynamoDbConfig env) "endpoint" = VStr "http://localhost:8000") /\
  (field (dynamoDbConfig env) "endpoint" = VStr "http://localhost:8000" \/
   field (dynamoDbConfig env) "endpoint" = VUndefined).
Proof.
  split.
  { exists (REGION env). split; [reflexivity|]. unfold REGION.
    destruct (AWS_REGION env) as [region|]; [|discriminate].
    destruct (region =? "") eqn:E; [discriminate|]. now apply String.eqb_neq. }
  split; [reflexivity|].
  unfold dynamoDbConfig, IS_OFFLINE.
  destruct (IS_OFFLINE_variable env) as [text|].
  - destruct (text =? "") eqn:E; cbn.
    + apply String.eqb_eq in E. subst text. split; [|now right].
      split; [intros (t & [= <-] & H); now destruct H|discriminate].
    + rewrite E. cbn. split; [|now left].
      split; [reflexivity|]. intros _. exists text.
      split; [reflexivity|now apply String.eqb_neq].
  - cbn. split; [|now right].
    split; [intros (t & H & _); discriminate H|discriminate].
Qed.

(** The environment of the unit tests, had it been set before the module
    is loaded: [IS_OFFLINE] is the text [false], and the client is local. *)
Lemma offline_with_the_text_false :
  field (dynamoDbConfig offline_env) "endpoint" = VStr "http://localhost:8000" /\
  field (dynamoDbConfig offline_env) "region" = VStr "us-east-1".
Proof. split; reflexivity. Qed.

(** ** The caller of the end-to-end tests *)

(** X17.  [callApi] never reports a status the server did not send, except
    500: a status other than 500 is the status of the response, with [null]
    for an empty response text and the parsed text otherwise.  A rejected
    [fetch] and a response text that is not JSON are both reported as 500,
    whatever status the server sent. *)
Theorem callApi_status_is_the_servers_or_500 (e : engine)
  (fetch : string -> fetch_outcome) (body : value) (status : Z) (data : value) :
  callApi e fetch body = (status, data) ->
  (status <> 500%Z ->
   exists responseText,
     fetch (JSON_stringify e body) = FetchAnswered status responseText /\
     ((responseText = "" /\ data = VNull) \/ JSON_parse e responseText = Some data)) /\
  ((exists error, fetch (JSON_stringify e body) = FetchRejected error) \/
   (exists sent responseText,
      fetch (JSON_stringify e body) = FetchAnswered sent responseText /\
      responseText <> "" /\ JSON_parse e responseText = None) ->
   status = 500%Z /\ exists message, data = VObj [("message", VStr message)]).
Proof.
  unfold callApi. intros H. split.
  - intros Hstatus.
    destruct (fetch (JSON_stringify e body)) as [error|sent responseText].
    { injection H as <- _. now destruct Hstatus. }
    exists responseText. destruct (responseText =? "") eqn:E; cbn [negb] in H.
    + injection H as <- <-. split; [reflexivity|]. left.
      split; [now apply String.eqb_eq|reflexivity].
    + destruct (JSON_parse e responseText) as [parsed|].
      * injection H as <- <-. split; [reflexivity|now right].
      * injection H as <- _. now destruct Hstatus.
  - intros [(error & Hfetch)|(sent & responseText & Hfetch & Htext & Hparse)];
      rewrite Hfetch in H.
    + injection H as <- <-. split; [reflexivity|]. now eexists.
    + apply String.eqb_neq in Htext. rewrite Htext, Hparse in H. cbn [negb] in H.
      injection H as <- <-. split; [reflexivity|]. now eexists.
Qed.

(** The third end-to-end test: the slot is taken, and [callApi] returns the
    status 409 with the parsed conflict message. *)
Lemma callApi_status_is_the_servers_or_500_witness :
  (409%Z <> 500%Z ->
   exists responseText,
     e2e_fetch (JSON_stringify e2e_engine jane) = FetchAnswered 409 responseText /\
     ((responseText = "" /\
       VObj [("message",
              VStr "This appointment time is already booked at this location")] = VNull) \/
      JSON_parse e2e_engine responseText =
        Some (VObj [("message",
                     VStr "This appointment time is already booked at this location")]))) /\
  ((exists error, e2e_fetch (JSON_stringify e2e_engine jane) = FetchRejected error) \/
   (exists sent responseText,
      e2e_fetch (JSON_stringify e2e_engine jane) = FetchAnswered sent responseText /\
      responseText <> "" /\ JSON_parse e2e_engine responseText = None) ->
   409%Z = 500%Z /\
   exists message,
     VObj [("message",
            VStr "This appointment time is already booked at this location")] =
     VObj [("message", VStr message)]).
Proof.
  apply (callApi_status_is_the_servers_or_500 e2e_engine e2e_fetch jane 409
           (VObj [("message",
                   VStr "This appointment time is already booked at this location")])).
  reflexivity.
Defined.

(** ** The handler against the mocks of the unit tests *)

(** Over the client of the module, [handler_with] is [handler]. *)
Lemma handler_with_dynamoDb (e : engine) (o : oracle) (event : value) (w : world) :
  handler_with (dynamoDb e o) e o event w = handler e o event w.
Proof. reflexivity. Qed.

Lemma handler_with_after_validation (client : DocumentClient) (e : engine)
  (o : oracle) (event : value) (w : world) (data : value) (key : string) :
  decode e event = Normal data ->
  validate e data = Normal tt ->
  derive_key e data = Normal key ->
  handler_with client e o event w =
    match check_conflict_with client e o (getParams_of e key) w with
    | (Normal _, w1) =>
        let item := item_of data (uuid_v4 o) key (toISOString o (ticks w1)) in
        match write_item_with client e o (uuid_v4 o) item (putParams_of e item)
                (tick w1) with
        | (Normal r, w2) => (Fulfilled r, w2)
        | (Return r, w2) => (Fulfilled r, w2)
        | (Throw err, w2) =>
            (Fulfilled (internal_error_response e err (toISOString o (ticks w2))),
             tick w2)
        end
    | (Return r, w1) => (Fulfilled r, w1)
    | (Throw err, w1) =>
        (Fulfilled (internal_error_response e err (toISOString o (ticks w1))), tick w1)
    end.
Proof.
  intros H1 H2 H3. unfold handler_with, try_catch, bind, lift.
  rewrite H1, H2, H3.
  destruct (check_conflict_with client e o (getParams_of e key) w) as [[[]|r|err] w1];
    try reflexivity.
  unfold now.
  destruct (write_item_with _ _ _ _ _ _ _) as [[r|r|err] w2]; reflexivity.
Qed.

(** X18.  The handler takes the word of its client for a conflict.  For
    every payload that passes the validation and has a key, against a
    mocked client: when the query resolves with [Items] that are not empty,
    the answer is 409, whatever the items are; when it resolves with
    [undefined], the read of [Items] throws inside the [try] of the query
    and the answer is the 500 of a failed query, with the message of the
    [TypeError]; when it is rejected, the answer is that 500 with the
    message of the rejection.  In the three cases the put is not called. *)
Theorem mocked_query_decides_conflict (e : engine) (o : oracle) (event : value)
  (w : world) (data : value) (key : string)
  (mockQueryPromise : settled mocked_output) (mockPutPromise : settled unit) :
  decode e event = Normal data ->
  validate e data = Normal tt ->
  derive_key e data = Normal key ->
  (exists item rest, mockQueryPromise = Resolved (Output (Some (item :: rest)))) \/
  mockQueryPromise = Resolved OutputUndefined \/
  (exists queryError, mockQueryPromise = RejectedWith queryError) ->
  exists r w',
    handler_with (mockDocumentClient mockQueryPromise mockPutPromise) e o event w =
      (Fulfilled r, w') /\
    calls w' = (calls w ++ [QueryCall (getParams_of e key)])%list /\
    table w' = table w /\
    headers r = [("Content-Type", "application/json")] /\
    match mockQueryPromise with
    | Resolved (Output _) =>
        statusCode r = 409%Z /\
        body r =
          JSON_stringify e
            (VObj [("message",
                    VStr "This appointment time is already booked at this location")])
    | Resolved OutputUndefined =>
        statusCode r = 500%Z /\
        body r =
          JSON_stringify e
            (VObj [("message", VStr "Could not process appointment request");
                   ("error",
                    VStr "Cannot read properties of undefined (reading 'Items')");
                   ("code", VUndefined);
                   ("time", VStr (toISOString o (ticks w)));
                   ("tableName", VStr (TABLE_NAME e));
                   ("params", VStr (JSON_stringify e (getParams_of e key)))])
    | RejectedWith queryError =>
        statusCode r = 500%Z /\
        body r =
          JSON_stringify e
            (VObj [("message", VStr "Could not process appointment request");
                   ("error", VStr (error_message queryError));
                   ("code", error_code queryError);
                   ("time", VStr (toISOString o (ticks w)));
                   ("tableName", VStr (TABLE_NAME e));
                   ("params", VStr (JSON_stringify e (getParams_of e key)))])
    end.
Proof.
  intros Hdecode Hvalidate Hkey Hquery.
  rewrite (handler_with_after_validation _ e o event w data key Hdecode Hvalidate Hkey).
  destruct Hquery as [(item & rest & ->)|[->|(queryError & ->)]];
    eexists _, _; (split; [reflexivity|]); repeat split.
Qed.

(** The fourth test of the suite: the item the mock resolves with has no
    [locationTimeKey], and the answer is 409. *)
Lemma mocked_query_decides_conflict_witness :
  (exists r w',
     handler_with (mockDocumentClient (Resolved (Output (Some [existing_item])))
                     (Resolved tt))
       test_engine test_oracle jane_event empty_world = (Fulfilled r, w') /\
     calls w' =
       (calls empty_world ++
        [QueryCall (getParams_of test_engine "Farrish Subaru#2025-04-20T15:30:00Z")])%list /\
     table w' = table empty_world /\
     headers r = [("Content-Type", "application/json")] /\
     statusCode r = 409%Z /\
     body r =
       JSON_stringify test_engine
         (VObj [("message",
                 VStr "This appointment time is already booked at this location")])) /\
  fst (handler_with (mockDocumentClient (Resolved (Output (Some [existing_item])))
                       (Resolved tt))
         test_engine test_oracle jane_event empty_world) =
    Fulfilled
      {| statusCode := 409;
         headers := [("Content-Type", "application/json")];
         body := "{" ++ quoted "message" ++ ":" ++
                 quoted "This appointment time is already booked at this location" ++
                 "}" |}.
Proof.
  split; [|reflexivity].
  apply (mocked_query_decides_conflict test_engine test_oracle jane_event empty_world
           jane "Farrish Subaru#2025-04-20T15:30:00Z"
           (Resolved (Output (Some [existing_item]))) (Resolved tt)).
  - reflexivity.
  - reflexivity.
  - reflexivity.
  - left. now exists existing_item, [].
Defined.

(** X19.  Against a mocked client, for every payload that passes the
    validation and has a key: when the query resolves with no [Items] or
    with empty [Items], the put is called once, after the query, with the
    item built from the payload, the generated id and one reading of the
    clock; the answer is 200 with that item when the put resolves, and the
    500 "Could not create appointment" with the message of the rejection
    when it is rejected. *)
Theorem mocked_put_decides_creation (e : engine) (o : oracle) (event : value)
  (w : world) (data : value) (key : string)
  (Items : option (list value)) (mockPutPromise : settled unit) :
  decode e event = Normal data ->
  validate e data = Normal tt ->
  derive_key e data = Normal key ->
  Items = None \/ Items = Some [] ->
  exists r w',
    let item := item_of data (uuid_v4 o) key (toISOString o (ticks w)) in
    handler_with (mockDocumentClient (Resolved (Output Items)) mockPutPromise)
      e o event w = (Fulfilled r, w') /\
    calls w' =
      (calls w ++
       [QueryCall (getParams_of e key); PutCall (putParams_of e item)])%list /\
    headers r = [("Content-Type", "application/json")] /\
    match mockPutPromise with
    | Resolved _ =>
        statusCode r = 200%Z /\
        body r =
          JSON_stringify e
            (VObj [("message", VStr "Appointment created successfully");
                   ("appointmentId", VStr (uuid_v4 o));
                   ("appointment", item)])
    | RejectedWith putError =>
        statusCode r = 500%Z /\
        body r =
          JSON_stringify e
            (VObj [("message", VStr "Could not create appointment");
                   ("error", VStr (error_message putError));
                   ("code", error_code putError);
                   ("time", VStr (toISOString o (S (ticks w))));
                   ("tableName", VStr (TABLE_NAME e));
                   ("params", VStr (JSON_stringify e (putParams_of e item)))])
    end.
Proof.
  intros Hdecode Hvalidate Hkey HItems.
  rewrite (handler_with_after_validation _ e o event w data key Hdecode Hvalidate Hkey).
  destruct HItems as [-> | ->]; destruct mockPutPromise as [[]|putError];
    eexists _, _; (split; [reflexivity|]);
    (split; [cbn [calls tick log_call]; now rewrite <- app_assoc|now repeat split]).
Qed.

(** The first and the sixth test of the suite. *)
Lemma mocked_put_decides_creation_witness :
  exists r w',
    let item :=
      item_of jane (uuid_v4 test_oracle) "Farrish Subaru#2025-04-20T15:30:00Z"
        (toISOString test_oracle (ticks empty_world)) in
    handler_with
      (mockDocumentClient (Resolved (Output (Some [])))
         (RejectedWith {| error_message := "Put Error";
                          error_code := VUndefined;
                          error_stack := "Error: Put Error" |}))
      test_engine test_oracle jane_event empty_world = (Fulfilled r, w') /\
    calls w' =
      (calls empty_world ++
       [QueryCall (getParams_of test_engine "Farrish Subaru#2025-04-20T15:30:00Z");
        PutCall (putParams_of test_engine item)])%list /\
    headers r = [("Content-Type", "application/json")] /\
    statusCode r = 500%Z /\
    body r =
      JSON_stringify test_engine
        (VObj [("message", VStr "Could not create appointment");
               ("error", VStr "Put Error");
               ("code", VUndefined);
               ("time", VStr (toISOString test_oracle (S (ticks empty_world))));
               ("tableName", VStr (TABLE_NAME test_engine));
               ("params",
                VStr (JSON_stringify test_engine (putParams_of test_engine item)))]).
Proof.
  apply (mocked_put_decides_creation test_engine test_oracle jane_event empty_world
           jane "Farrish Subaru#2025-04-20T15:30:00Z" (Some [])
           (RejectedWith {| error_message := "Put Error";
                            error_code := VUndefined;
                            error_stack := "Error: Put Error" |})).
  - reflexivity.
  - reflexivity.
  - reflexivity.
  - now right.
Defined.
